(** * Discovery session core of the Azure Landing Zone discovery agent

    A shallow embedding of [src/discovery_framework.py], [src/validators.py],
    [src/discovery_agent.py] and the question-and-answer part of
    [src/discovery_workshop.py], followed by the properties of the session
    state machine that the specification states about them.

    Conventions of the embedding.
    - Python [dict]s keyed by question id that are looked up, written and
      counted ([DiscoverySession.answers], [DiscoveryAgent.answer_cache])
      are finite maps [gmap string _].  Where the code iterates over such a
      dictionary the model enumerates the map; the order of enumeration
      stands for the order of insertion, and nothing proved below depends
      on it.  The question catalog, whose definition order is observable,
      is an association list.
    - Python [float]s are the rationals they denote ([Q]); rounding error of
      float arithmetic is outside the model.
    - Strings are ASCII strings; [lower] and [strip] act on ASCII letters and
      ASCII white space.
    - A method is a function from the state of its object to the new state
      and either a value or the exception that escaped ([M]).  State changes
      made before an exception is raised are kept, as in Python.
    - The services the agent calls (search index, chat model, blob storage)
      are functions held by the agent; the clock, the files of the working
      directory, the paths that can be opened for writing and the log are
      part of its state.  A JSON file is the object it encodes. *)

From Stdlib Require Import QArith Qround Ascii.
Close Scope Q_scope.
From stdpp Require Import gmap strings list pretty.

(** ** Exceptions and stateful computations *)

Inductive exn :=
| KeyError (key : string)
| ValueError (msg : string)
| TypeError (msg : string)
| AttributeError (msg : string)
| ZeroDivisionError
| EOFError
| OSError (path : string)
| JSONDecodeError (path : string)
| IndexError
| CollaboratorError.

Inductive result (A : Type) :=
| Ok (a : A)
| Raise (e : exn).
Arguments Ok {A} a.
Arguments Raise {A} e.

Definition M (S A : Type) : Type := S -> S * result A.

Definition ret {S A} (a : A) : M S A := fun s => (s, Ok a).

Definition bind {S A B} (m : M S A) (k : A -> M S B) : M S B :=
  fun s => match m s with
           | (s', Ok a) => k a s'
           | (s', Raise e) => (s', Raise e)
           end.

Definition raise {S A} (e : exn) : M S A := fun s => (s, Raise e).

(** [try: m except Exception as e: h e] *)
Definition try_except {S A} (m : M S A) (h : exn -> M S A) : M S A :=
  fun s => match m s with
           | (s', Ok a) => (s', Ok a)
           | (s', Raise e) => h e s'
           end.

Definition get {S} : M S S := fun s => (s, Ok s).
Definition modify {S} (f : S -> S) : M S unit := fun s => (f s, Ok tt).

(** Evaluation of an expression that may raise but has no side effect. *)
Definition lift_result {S A} (r : result A) : M S A := fun s => (s, r).

Notation "x <- m ;; k" := (bind m (fun x => k))
  (at level 100, m at next level, right associativity).
Notation "m ;;; k" := (bind m (fun _ => k))
  (at level 100, right associativity).

(** [for x in l: body x] *)
Fixpoint for_each {S A} (l : list A) (body : A -> M S unit) : M S unit :=
  match l with
  | [] => ret tt
  | x :: l' => body x ;;; for_each l' body
  end.

Definition bind_result {A B} (r : result A) (k : A -> result B) : result B :=
  match r with
  | Ok a => k a
  | Raise e => Raise e
  end.

(** [[f(x) for x in l]] where [f] may raise: the first exception escapes. *)
Fixpoint map_result {A B} (f : A -> result B) (l : list A) : result (list B) :=
  match l with
  | [] => Ok []
  | x :: l' =>
      bind_result (f x) (fun y =>
      bind_result (map_result f l') (fun ys => Ok (y :: ys)))
  end.

(** ** Strings *)

Definition lower_ascii (c : ascii) : ascii :=
  let n := nat_of_ascii c in
  if (65 <=? n)%nat && (n <=? 90)%nat then ascii_of_nat (n + 32) else c.

(** [s.lower()] *)
Fixpoint lower (s : string) : string :=
  match s with
  | EmptyString => EmptyString
  | String c s' => String (lower_ascii c) (lower s')
  end.

(** [s.startswith(p)] *)
Definition startswith (s p : string) : bool := String.prefix p s.

Definition is_whitespace (c : ascii) : bool :=
  let n := nat_of_ascii c in
  ((9 <=? n)%nat && (n <=? 13)%nat) || ((28 <=? n)%nat && (n <=? 32)%nat).

Fixpoint lstrip (s : string) : string :=
  match s with
  | EmptyString => EmptyString
  | String c s' => if is_whitespace c then lstrip s' else s
  end.

(** [s.strip()] *)
Definition strip (s : string) : string :=
  String.rev (lstrip (String.rev (lstrip s))).

(** [sep.join(l)] *)
Fixpoint join (sep : string) (l : list string) : string :=
  match l with
  | [] => EmptyString
  | [x] => x
  | x :: l' => x +:+ sep +:+ join sep l'
  end.

(** Truth value of a string: the empty string is false. *)
Definition truthy (s : string) : bool :=
  match s with
  | EmptyString => false
  | _ => true
  end.

(** ** discovery_framework.py *)

Inductive DiscoveryCategory :=
| BUSINESS_CONTEXT
| NETWORK_DESIGN
| SECURITY_IDENTITY
| GOVERNANCE
| COMPLIANCE
| OPERATIONS
| WORKLOAD_PLANNING
| COST_BUDGETING
| INTEGRATION
| DISASTER_RECOVERY.

(** [for category in DiscoveryCategory]: members in definition order. *)
Definition DiscoveryCategory_members : list DiscoveryCategory :=
  [BUSINESS_CONTEXT; NETWORK_DESIGN; SECURITY_IDENTITY; GOVERNANCE; COMPLIANCE;
   OPERATIONS; WORKLOAD_PLANNING; COST_BUDGETING; INTEGRATION; DISASTER_RECOVERY].

Definition category_value (c : DiscoveryCategory) : string :=
  match c with
  | BUSINESS_CONTEXT => "Business Context"
  | NETWORK_DESIGN => "Network Design"
  | SECURITY_IDENTITY => "Security & Identity"
  | GOVERNANCE => "Governance"
  | COMPLIANCE => "Compliance & Regulatory"
  | OPERATIONS => "Operations & Management"
  | WORKLOAD_PLANNING => "Workload Planning"
  | COST_BUDGETING => "Cost & Budgeting"
  | INTEGRATION => "Integration & Connectivity"
  | DISASTER_RECOVERY => "Disaster Recovery & Backup"
  end.

Inductive InformationPriority :=
| CRITICAL
| HIGH
| MEDIUM
| LOW.

Definition priority_value (p : InformationPriority) : string :=
  match p with
  | CRITICAL => "critical"
  | HIGH => "high"
  | MEDIUM => "medium"
  | LOW => "low"
  end.

#[global] Instance DiscoveryCategory_eq_dec : EqDecision DiscoveryCategory.
Proof. solve_decision. Defined.

#[global] Instance InformationPriority_eq_dec : EqDecision InformationPriority.
Proof. solve_decision. Defined.

Record DiscoveryQuestion := {
  id : string;
  category : DiscoveryCategory;
  question : string;
  priority : InformationPriority;
  help_text : option string;
  examples : option (list string);
  validation_pattern : option string;
  default_value : option string;
  related_questions : option (list string) }.

Record DiscoveryAnswer := {
  question_id : string;
  answer : string;
  source : string;
  confidence : Q;
  document_reference : option string;
  notes : option string }.

(** An insertion-ordered dictionary that is only read. *)
Definition dict (V : Type) : Type := list (string * V).

(** [d[k]] *)
Fixpoint dict_getitem {V} (d : dict V) (k : string) : result V :=
  match d with
  | [] => Raise (KeyError k)
  | (k', v) :: d' => if String.eqb k' k then Ok v else dict_getitem d' k
  end.

(** [d.get(k)] *)
Definition dict_get {V} (d : dict V) (k : string) : option V :=
  match dict_getitem d k with
  | Ok v => Some v
  | Raise _ => None
  end.

Definition dict_values {V} (d : dict V) : list V := map snd d.
Definition dict_keys {V} (d : dict V) : list string := map fst d.

(** [DISCOVERY_QUESTIONS], in the order of its definition *)
Definition DISCOVERY_QUESTIONS : list (string * DiscoveryQuestion) :=
  [ ("biz_001", Build_DiscoveryQuestion "biz_001" BUSINESS_CONTEXT
      "What is the primary business objective for moving to Azure?"
      CRITICAL (Some "Understanding business drivers helps align technical decisions")
      (Some ["Digital transformation initiative"; "Cost optimization and datacenter exit"; "Support new products/services"; "Improve agility and time-to-market"])
      None None None);
    ("biz_002", Build_DiscoveryQuestion "biz_002" BUSINESS_CONTEXT
      "What is the expected timeline for Azure deployment?"
      CRITICAL (Some "Timeline impacts design choices and migration strategy")
      (Some ["3 months"; "6 months"; "12 months"; "18+ months"])
      None None None);
    ("biz_003", Build_DiscoveryQuestion "biz_003" BUSINESS_CONTEXT
      "What are the critical workloads to migrate first?"
      HIGH (Some "Identifies pilot workloads and initial design requirements")
      None
      None None None);
    ("biz_004", Build_DiscoveryQuestion "biz_004" BUSINESS_CONTEXT
      "What is the organization's cloud maturity level?"
      MEDIUM None
      (Some ["No cloud experience"; "Some cloud pilots"; "Cloud-first strategy"; "Multi-cloud expertise"])
      None None None);
    ("net_001", Build_DiscoveryQuestion "net_001" NETWORK_DESIGN
      "What IP address ranges are available for Azure VNets?"
      CRITICAL (Some "Must not conflict with on-premises or other cloud networks")
      (Some ["10.100.0.0/16"; "172.16.0.0/12"; "192.168.0.0/16"])
      (Some "^\d{1,3}\.\d{1,3}\.\d{1,3}\.\d{1,3}/\d{1,2}$") None None);
    ("net_002", Build_DiscoveryQuestion "net_002" NETWORK_DESIGN
      "What on-premises networks need connectivity to Azure?"
      CRITICAL (Some "Determines ExpressRoute or VPN requirements")
      None
      None None None);
    ("net_003", Build_DiscoveryQuestion "net_003" NETWORK_DESIGN
      "Preferred connectivity method: ExpressRoute, Site-to-Site VPN, or both?"
      CRITICAL None
      (Some ["ExpressRoute (dedicated, low-latency)"; "S2S VPN (cost-effective)"; "Hybrid (both for redundancy)"])
      None None None);
    ("net_004", Build_DiscoveryQuestion "net_004" NETWORK_DESIGN
      "What is the required ExpressRoute bandwidth?"
      HIGH None
      (Some ["50 Mbps"; "100 Mbps"; "500 Mbps"; "1 Gbps"; "10 Gbps"])
      None None (Some ["net_003"]));
    ("net_005", Build_DiscoveryQuestion "net_005" NETWORK_DESIGN
      "What is the hub-spoke topology design? (Number of spokes, segmentation strategy)"
      HIGH (Some "Hub-spoke is Azure Landing Zone recommended pattern")
      None
      None None None);
    ("net_006", Build_DiscoveryQuestion "net_006" NETWORK_DESIGN
      "What are the DNS server IPs (on-premises and Azure)?"
      HIGH None
      (Some ["On-prem: 10.50.10.5, 10.50.10.6"; "Azure: 168.63.129.16 (default)"])
      None None None);
    ("net_007", Build_DiscoveryQuestion "net_007" NETWORK_DESIGN
      "Are Private Endpoints required for Azure PaaS services?"
      MEDIUM None
      (Some ["Yes, for all PaaS"; "Only for critical services"; "No, use service endpoints"])
      None None None);
    ("sec_001", Build_DiscoveryQuestion "sec_001" SECURITY_IDENTITY
      "Is Multi-Factor Authentication (MFA) required for all users?"
      CRITICAL None
      (Some ["Yes, all users"; "Admins only"; "Conditional access based"])
      None None None);
    ("sec_002", Build_DiscoveryQuestion "sec_002" SECURITY_IDENTITY
      "What is the identity provider? (Azure AD, Hybrid, Federated)"
      CRITICAL None
      (Some ["Azure AD (cloud-only)"; "Hybrid with AD Connect"; "Federated (ADFS, PingFederate)"])
      None None None);
    ("sec_003", Build_DiscoveryQuestion "sec_003" SECURITY_IDENTITY
      "What encryption requirements exist? (at-rest, in-transit, CMK)"
      CRITICAL (Some "Customer-Managed Keys (CMK) vs Microsoft-managed keys")
      None
      None None None);
    ("sec_004", Build_DiscoveryQuestion "sec_004" SECURITY_IDENTITY
      "Is Privileged Identity Management (PIM) required?"
      HIGH None
      (Some ["Yes, for all admins"; "Yes, for production only"; "No"])
      None None None);
    ("sec_005", Build_DiscoveryQuestion "sec_005" SECURITY_IDENTITY
      "What are the firewall requirements? (Azure Firewall, NVA, both)"
      HIGH None
      (Some ["Azure Firewall"; "Third-party NVA (Palo Alto, Fortinet)"; "Hybrid approach"])
      None None None);
    ("sec_006", Build_DiscoveryQuestion "sec_006" SECURITY_IDENTITY
      "Is DDoS Protection Standard required?"
      MEDIUM None
      (Some ["Yes, for internet-facing apps"; "No, Basic tier sufficient"])
      None None None);
    ("sec_007", Build_DiscoveryQuestion "sec_007" SECURITY_IDENTITY
      "What SIEM solution will be used? (Sentinel, third-party)"
      MEDIUM None
      (Some ["Azure Sentinel"; "Splunk"; "QRadar"; "Existing on-prem SIEM"])
      None None None);
    ("gov_001", Build_DiscoveryQuestion "gov_001" GOVERNANCE
      "What is the Azure subscription strategy? (per workload, per environment, per business unit)"
      CRITICAL (Some "Subscription design impacts billing, limits, and isolation")
      None
      None None None);
    ("gov_002", Build_DiscoveryQuestion "gov_002" GOVERNANCE
      "What Management Group hierarchy is required?"
      HIGH None
      (Some ["Tenant Root > Platform > Landing Zones"; "By geography"; "By business unit"])
      None None None);
    ("gov_003", Build_DiscoveryQuestion "gov_003" GOVERNANCE
      "What mandatory tags must be enforced on all resources?"
      HIGH None
      (Some ["CostCenter, Owner, Environment, Application"; "ProjectCode, Compliance, DataClassification"])
      None None None);
    ("gov_004", Build_DiscoveryQuestion "gov_004" GOVERNANCE
      "What naming conventions will be used for Azure resources?"
      HIGH (Some "Consistent naming aids management and automation")
      (Some ["<resource-type>-<workload>-<env>-<region>-<instance>"])
      None None None);
    ("gov_005", Build_DiscoveryQuestion "gov_005" GOVERNANCE
      "Which Azure regions are approved for deployment?"
      CRITICAL None
      (Some ["East US, West US"; "West Europe, North Europe"; "Southeast Asia, East Asia"])
      None None None);
    ("gov_006", Build_DiscoveryQuestion "gov_006" GOVERNANCE
      "What resource types are prohibited? (VM sizes, services)"
      MEDIUM None
      (Some ["No F-series VMs"; "No Basic tier services"; "No public IPs on VMs"])
      None None None);
    ("comp_001", Build_DiscoveryQuestion "comp_001" COMPLIANCE
      "What regulatory compliance requirements apply? (HIPAA, PCI-DSS, SOC2, ISO)"
      CRITICAL (Some "Determines required controls and certifications")
      None
      None None None);
    ("comp_002", Build_DiscoveryQuestion "comp_002" COMPLIANCE
      "What is the data sovereignty requirement? (data residency, cross-border restrictions)"
      CRITICAL None
      (Some ["Data must stay in US"; "EU GDPR compliance"; "No restrictions"])
      None None None);
    ("comp_003", Build_DiscoveryQuestion "comp_003" COMPLIANCE
      "What is the required audit log retention period?"
      HIGH None
      (Some ["90 days"; "1 year"; "7 years (financial)"; "Indefinite"])
      None None None);
    ("comp_004", Build_DiscoveryQuestion "comp_004" COMPLIANCE
      "Are there specific security frameworks to follow? (NIST, CIS, Azure Security Benchmark)"
      HIGH None
      None
      None None None);
    ("ops_001", Build_DiscoveryQuestion "ops_001" OPERATIONS
      "What monitoring solution will be used? (Azure Monitor, third-party)"
      HIGH None
      (Some ["Azure Monitor + Log Analytics"; "Datadog"; "Dynatrace"; "Hybrid"])
      None None None);
    ("ops_002", Build_DiscoveryQuestion "ops_002" OPERATIONS
      "What are the SLA requirements for production workloads?"
      HIGH None
      (Some ["99.9% (3-9s)"; "99.95% (zone-redundant)"; "99.99% (4-9s)"; "99.999% (5-9s)"])
      None None None);
    ("ops_003", Build_DiscoveryQuestion "ops_003" OPERATIONS
      "What is the maintenance window for production systems?"
      MEDIUM None
      (Some ["Saturday 2-6 AM EST"; "No maintenance window (always-on)"; "Flexible"])
      None None None);
    ("ops_004", Build_DiscoveryQuestion "ops_004" OPERATIONS
      "Is automation required for provisioning? (IaC tool preference)"
      HIGH None
      (Some ["Terraform"; "Bicep"; "ARM Templates"; "Azure DevOps Pipelines"; "GitHub Actions"])
      None None None);
    ("ops_005", Build_DiscoveryQuestion "ops_005" OPERATIONS
      "What ticketing/ITSM system is used?"
      MEDIUM None
      (Some ["ServiceNow"; "Jira Service Desk"; "BMC Remedy"; "Azure DevOps"])
      None None None);
    ("dr_001", Build_DiscoveryQuestion "dr_001" DISASTER_RECOVERY
      "What are the RPO (Recovery Point Objective) requirements?"
      CRITICAL (Some "How much data loss is acceptable")
      (Some ["15 minutes"; "1 hour"; "4 hours"; "24 hours"])
      None None None);
    ("dr_002", Build_DiscoveryQuestion "dr_002" DISASTER_RECOVERY
      "What are the RTO (Recovery Time Objective) requirements?"
      CRITICAL (Some "How quickly must systems be restored")
      (Some ["1 hour"; "4 hours"; "8 hours"; "24 hours"])
      None None None);
    ("dr_003", Build_DiscoveryQuestion "dr_003" DISASTER_RECOVERY
      "Is multi-region deployment required for DR?"
      HIGH None
      (Some ["Yes, active-active"; "Yes, active-passive"; "No, zone-redundant sufficient"])
      None None None);
    ("dr_004", Build_DiscoveryQuestion "dr_004" DISASTER_RECOVERY
      "What backup retention policy is required?"
      HIGH None
      (Some ["Daily for 30 days"; "Daily/7d, Weekly/4w, Monthly/12m, Yearly/7y"])
      None None None);
    ("cost_001", Build_DiscoveryQuestion "cost_001" COST_BUDGETING
      "What is the approved budget for Azure (Year 1)?"
      CRITICAL None
      (Some ["$100K"; "$500K"; "$1M"; "$5M+"])
      None None None);
    ("cost_002", Build_DiscoveryQuestion "cost_002" COST_BUDGETING
      "How should costs be allocated? (business unit, project, environment)"
      HIGH None
      None
      None None None);
    ("cost_003", Build_DiscoveryQuestion "cost_003" COST_BUDGETING
      "Are Azure Reservations or Savings Plans being considered?"
      MEDIUM None
      (Some ["Yes, 1-year commitment"; "Yes, 3-year commitment"; "No, pay-as-you-go"])
      None None None);
    ("cost_004", Build_DiscoveryQuestion "cost_004" COST_BUDGETING
      "What cost alert thresholds should be configured?"
      MEDIUM None
      (Some ["80% budget warning, 90% critical"; "Monthly variance >10%"])
      None None None);
    ("int_001", Build_DiscoveryQuestion "int_001" INTEGRATION
      "What on-premises systems need integration with Azure?"
      HIGH None
      (Some ["Active Directory"; "SAP"; "Oracle ERP"; "File servers"; "Databases"])
      None None None);
    ("int_002", Build_DiscoveryQuestion "int_002" INTEGRATION
      "Are hybrid file services required? (Azure File Sync, NetApp)"
      MEDIUM None
      None
      None None None);
    ("int_003", Build_DiscoveryQuestion "int_003" INTEGRATION
      "What third-party SaaS applications need integration?"
      MEDIUM None
      (Some ["Salesforce"; "Office 365"; "ServiceNow"; "Workday"])
      None None None);
    ("wkld_001", Build_DiscoveryQuestion "wkld_001" WORKLOAD_PLANNING
      "How many VMs are expected in Year 1?"
      HIGH None
      (Some ["<50"; "50-200"; "200-500"; "500+"])
      None None None);
    ("wkld_002", Build_DiscoveryQuestion "wkld_002" WORKLOAD_PLANNING
      "What application architectures will be used? (IaaS, PaaS, containers, serverless)"
      HIGH None
      None
      None None None);
    ("wkld_003", Build_DiscoveryQuestion "wkld_003" WORKLOAD_PLANNING
      "Is Kubernetes/AKS required? If yes, how many clusters?"
      MEDIUM None
      None
      None None None);
    ("wkld_004", Build_DiscoveryQuestion "wkld_004" WORKLOAD_PLANNING
      "What database platforms are needed? (SQL, Cosmos DB, PostgreSQL, MySQL)"
      HIGH None
      None
      None None None) ].

(** [[q for q in DISCOVERY_QUESTIONS.values() if q.category == category]] *)
Definition get_questions_by_category (c : DiscoveryCategory) : list DiscoveryQuestion :=
  List.filter (fun q => bool_decide (category q = c)) (dict_values DISCOVERY_QUESTIONS).

Definition get_questions_by_priority (p : InformationPriority) : list DiscoveryQuestion :=
  List.filter (fun q => bool_decide (priority q = p)) (dict_values DISCOVERY_QUESTIONS).

Definition get_critical_questions : list DiscoveryQuestion :=
  get_questions_by_priority CRITICAL.

(** ** validators.py *)

Inductive ValidationSeverity :=
| ERROR
| WARNING
| INFO
| SUCCESS.

Record ValidationResult := {
  severity : ValidationSeverity;
  message : string;
  recommendation : option string }.

(** [re.search] of a pattern anchored nowhere: some suffix of [s] starts
    with a match. *)
Fixpoint search_suffix (starts_with_match : string -> bool) (s : string) : bool :=
  starts_with_match s ||
  match s with
  | EmptyString => false
  | String _ s' => search_suffix starts_with_match s'
  end.

(** [p in s] *)
Definition contains (p s : string) : bool := search_suffix (String.prefix p) s.

Definition is_digit (c : ascii) : bool :=
  let n := nat_of_ascii c in (48 <=? n)%nat && (n <=? 57)%nat.

(** A match of [\$[\d,]+] starts here. *)
Definition budget_dollar_amount (s : string) : bool :=
  match s with
  | String c1 (String c2 _) =>
      Ascii.eqb c1 "$" && (is_digit c2 || Ascii.eqb c2 ",")
  | _ => false
  end.

(** A match of [\d+\s*(k|thousand|m|million)] whose last digit is here. *)
Definition budget_scaled_amount (s : string) : bool :=
  match s with
  | String c rest =>
      is_digit c &&
      (let unit := lstrip rest in
       String.prefix "k" unit || String.prefix "thousand" unit ||
       String.prefix "m" unit || String.prefix "million" unit)
  | EmptyString => false
  end.

Definition validate_environment_separation (answer : string) : list ValidationResult :=
  let answer_lower := lower answer in
  if contains "subscription" answer_lower && contains "separate" answer_lower then
    [ {| severity := SUCCESS;
         message := "Subscription-level isolation follows Azure best practices";
         recommendation := Some "This provides the strongest security boundary and governance" |} ]
  else if contains "resource group" answer_lower then
    [ {| severity := INFO;
         message := "Resource group isolation is acceptable for small deployments";
         recommendation := Some "Consider subscription-level isolation for production workloads" |} ]
  else if contains "single" answer_lower || contains "same" answer_lower then
    [ {| severity := WARNING;
         message := "Single environment approach increases risk";
         recommendation := Some "Strongly recommend separating dev, test, and production environments" |} ]
  else [].

Definition validate_backup_strategy (answer : string) : list ValidationResult :=
  let answer_lower := lower answer in
  let has_rpo := contains "rpo" answer_lower || contains "recovery point" answer_lower in
  let has_rto := contains "rto" answer_lower || contains "recovery time" answer_lower in
  (if has_rpo && has_rto then
     [ {| severity := SUCCESS;
          message := "RPO and RTO objectives defined";
          recommendation := Some "Ensure backup solutions meet these requirements" |} ]
   else
     let missing :=
       (if negb has_rpo then ["RPO (Recovery Point Objective)"] else []) ++
       (if negb has_rto then ["RTO (Recovery Time Objective)"] else []) in
     [ {| severity := WARNING;
          message := "Missing critical DR metrics: " +:+ join ", " missing;
          recommendation := Some "Define RPO and RTO to determine appropriate backup strategy" |} ])
  ++
  (if contains "geo" answer_lower || contains "region" answer_lower then
     [ {| severity := SUCCESS;
          message := "Geo-redundancy mentioned for disaster recovery";
          recommendation := None |} ]
   else
     [ {| severity := INFO;
          message := "Consider geo-redundancy for critical workloads";
          recommendation := Some "Azure Backup and ASR support cross-region replication" |} ]).

Definition validate_connectivity_method (answer : string) : list ValidationResult :=
  let answer_lower := lower answer in
  let expressroute :=
    contains "expressroute" answer_lower || contains "express route" answer_lower in
  (if expressroute then
     [ {| severity := SUCCESS;
          message := "ExpressRoute provides dedicated, low-latency connectivity";
          recommendation := Some "Recommended for production workloads with high throughput needs" |} ]
   else if contains "vpn" answer_lower then
     [ {| severity := INFO;
          message := "VPN is cost-effective but has bandwidth/latency limitations";
          recommendation := Some "Consider ExpressRoute for production workloads or high data transfer" |} ]
   else [])
  ++
  (if expressroute && contains "vpn" answer_lower then
     [ {| severity := SUCCESS;
          message := "Dual connectivity (ExpressRoute + VPN) provides redundancy";
          recommendation := Some "This is the best practice for mission-critical workloads" |} ]
   else []).

Definition validate_budget (answer : string) : list ValidationResult :=
  let answer_lower := lower answer in
  (if search_suffix budget_dollar_amount answer_lower
      || search_suffix budget_scaled_amount answer_lower then
     [ {| severity := SUCCESS;
          message := "Budget amount specified";
          recommendation := None |} ]
   else
     [ {| severity := WARNING;
          message := "No specific budget amount mentioned";
          recommendation := Some "Define a clear budget to enable cost controls and alerts" |} ])
  ++
  (if contains "monitor" answer_lower || contains "alert" answer_lower
      || contains "budget alert" answer_lower then
     [ {| severity := SUCCESS;
          message := "Cost monitoring mentioned";
          recommendation := Some "Azure Cost Management provides budgets, alerts, and recommendations" |} ]
   else []).

Definition frameworks : list (string * string) :=
  [ ("pci", "PCI-DSS"); ("hipaa", "HIPAA"); ("soc", "SOC 2");
    ("iso", "ISO 27001"); ("gdpr", "GDPR"); ("fedramp", "FedRAMP") ].

Definition validate_security_requirements (answer : string) : list ValidationResult :=
  let answer_lower := lower answer in
  let found_frameworks :=
    map snd (List.filter (fun kv => contains (fst kv) answer_lower) frameworks) in
  (match found_frameworks with
   | [] => []
   | _ =>
     [ {| severity := SUCCESS;
          message := "Compliance frameworks identified: " +:+ join ", " found_frameworks;
          recommendation := Some "Ensure Landing Zone meets these compliance requirements" |} ]
   end)
  ++
  (if contains "mfa" answer_lower || contains "multi-factor" answer_lower then
     [ {| severity := SUCCESS;
          message := "MFA requirement mentioned - critical for security";
          recommendation := None |} ]
   else
     [ {| severity := WARNING;
          message := "MFA not mentioned in security requirements";
          recommendation := Some "Strongly recommend enforcing MFA for all user access" |} ]).

Section QuestionValidator.

(** [AzureValidator.validate_ip_range] is a wrapper around the [ipaddress]
    library, which is not part of this development.  It catches the
    library's [ValueError] and returns a list of findings for every string,
    so it enters as a total function. *)
Variable validate_ip_range : string -> list ValidationResult.

(** [QuestionValidator.VALIDATORS] *)
Definition VALIDATORS : dict (string -> list ValidationResult) :=
  [ ("net_001", validate_ip_range);
    ("gov_003", validate_environment_separation);
    ("dr_001", validate_backup_strategy);
    ("net_003", validate_connectivity_method);
    ("cost_001", validate_budget);
    ("sec_001", validate_security_requirements) ].

(** [QuestionValidator.validate_answer] *)
Definition validate_answer (question_id answer : string) : list ValidationResult :=
  match dict_get VALIDATORS question_id with
  | Some validator => validator answer
  | None => []
  end.

End QuestionValidator.

(** ** discovery_agent.py: the session *)

(** A point in time, by the renderings the agent uses. *)
Record datetime := {
  epoch : nat;
  isoformat : string;
  strftime_Ymd_HMS : string }.

Record DiscoverySession := {
  session_id : string;
  timestamp : datetime;
  answers : gmap string DiscoveryAnswer;
  documents_analyzed : list (option string);
  completion_percentage : Q;
  missing_critical_info : list string }.

(** [DiscoverySession(session_id=...)] at time [now] *)
Definition new_DiscoverySession (sid : string) (now : datetime) : DiscoverySession :=
  {| session_id := sid;
     timestamp := now;
     answers := ∅;
     documents_analyzed := [];
     completion_percentage := 0;
     missing_critical_info := [] |}.

Definition set_answers (f : gmap string DiscoveryAnswer -> gmap string DiscoveryAnswer)
    (s : DiscoverySession) : DiscoverySession :=
  {| session_id := session_id s;
     timestamp := timestamp s;
     answers := f (answers s);
     documents_analyzed := documents_analyzed s;
     completion_percentage := completion_percentage s;
     missing_critical_info := missing_critical_info s |}.

Definition set_documents_analyzed (f : list (option string) -> list (option string))
    (s : DiscoverySession) : DiscoverySession :=
  {| session_id := session_id s;
     timestamp := timestamp s;
     answers := answers s;
     documents_analyzed := f (documents_analyzed s);
     completion_percentage := completion_percentage s;
     missing_critical_info := missing_critical_info s |}.

Definition get_answered_count (s : DiscoverySession) : nat := size (answers s).

Definition get_total_count : nat := length DISCOVERY_QUESTIONS.

Definition Q_of_nat (n : nat) : Q := inject_Z (Z.of_nat n).

(** [(answered / total) * 100]; the catalog is a non-empty constant, so the
    division never raises. *)
Definition percentage_of (answered total : nat) : Q :=
  (Q_of_nat answered / Q_of_nat total * 100)%Q.

Definition update_completion (s : DiscoverySession) : DiscoverySession :=
  {| session_id := session_id s;
     timestamp := timestamp s;
     answers := answers s;
     documents_analyzed := documents_analyzed s;
     completion_percentage := percentage_of (get_answered_count s) get_total_count;
     missing_critical_info := missing_critical_info s |}.

(** ** discovery_agent.py: the exported snapshot

    The object written by [json.dump] and read back by [json.load].  A key
    that may be missing from a file that is read is an [option]; the JSON
    text itself is not modelled. *)

Record answer_data := {
  ad_question_id : option string;
  ad_question : option string;
  ad_category : option string;
  ad_priority : option string;
  ad_answer : option string;
  ad_source : option string;
  ad_confidence : option Q;
  ad_document_reference : option string }.

Record session_data := {
  sd_id : option string;
  sd_timestamp : option string;
  sd_completion : option Q }.

Record missing_data := {
  md_question_id : string;
  md_question : string;
  md_category : string;
  md_priority : string;
  md_help_text : option string;
  md_examples : option (list string) }.

Record count_summary := {
  cs_answered : nat;
  cs_total : nat;
  cs_percentage : Q }.

Record summary := {
  sm_session_id : string;
  sm_timestamp : string;
  sm_total_questions : nat;
  sm_answered : nat;
  sm_completion_percentage : Q;
  sm_documents_analyzed : nat;
  sm_answers_from_documents : nat;
  sm_answers_from_user : nat;
  sm_critical_questions : count_summary;
  sm_by_category : list (string * count_summary);
  sm_missing_critical : list string }.

Record results := {
  r_session : option session_data;
  r_summary : option summary;
  r_answers : option (list answer_data);
  r_missing_information : option (list missing_data) }.

Inductive file_content :=
| Json (r : results)
| NotJson.

Record file := {
  ctime : nat;
  content : file_content }.

(** ** models.py and document_processor.py, as far as the agent uses them *)

Record ProcessedContent := {
  artifact_name : string;
  extracted_text : string;
  keywords : list string;
  confidence_score : Q }.

(** [content.text_content] on a [ProcessedContent]: the class has no such
    attribute (its text is [extracted_text]). *)
Definition ProcessedContent_text_content (p : ProcessedContent) : option string := None.

(** [self.document_processor.process(artifact_name, content)]: the method
    is [process(self, content, document_type, artifact_name)], so a call
    with two positional arguments raises before its body runs. *)
Definition document_processor_process (artifact_name content : string)
    : result ProcessedContent :=
  Raise (TypeError "process() missing 1 required positional argument: 'artifact_name'").

(** ** discovery_agent.py: the agent *)

Inductive LogLevel :=
| LOG_DEBUG
| LOG_INFO
| LOG_WARNING
| LOG_ERROR.

(** What the search index returns for one document. *)
Record search_hit := {
  hit_blob_name : option string;
  hit_content : string }.

(** The parsed reply of the chat model to a per-question prompt: the keys
    [answer], [confidence] and [source_document] of the JSON object.  An
    outer [None] is a missing key, [Some None] the JSON [null]. *)
Record chat_reply := {
  reply_answer : option string;
  reply_confidence : option Q;
  reply_source_document : option (option string) }.

(** One element of the parsed reply to a per-document prompt. *)
Record chat_item := {
  item_question_id : option string;
  item_answer : option string;
  item_confidence : option Q;
  item_document_reference : option (option string) }.

Record DiscoveryAgent := {
  (** [self.search_client.search(query, top=3, ...)]; [Raise] when the
      service call fails. *)
  search_client : string -> result (list search_hit);
  (** [self.kernel]: the chat completion for the per-question prompt
      followed by [_clean_json_response] and [json.loads]; [Raise] when the
      call fails or the reply does not parse. *)
  kernel_answer : DiscoveryQuestion -> list search_hit -> result chat_reply;
  (** [self.kernel]: the same for the per-document prompt. *)
  kernel_document : string -> string -> result (list chat_item);
  (** [self.storage_client.list_artifacts()], each artifact by the name it
      is printed with, and [self.storage_client.download_artifact]. *)
  storage_list_artifacts : result (list string);
  storage_download_artifact : string -> result string;
  session : option DiscoverySession;
  use_search_index : bool;
  auto_save_interval : nat;
  confidence_threshold : Q;
  answer_cache : gmap string DiscoveryAnswer;
  (** The process environment the agent acts on: the clock, the files of
      the working directory, the paths that [open(path, 'w')] can open
      (those whose directory exists and can be written to) and the records
      handed to [logger]. *)
  clock : datetime;
  working_directory : gmap string file;
  writable : string -> bool;
  logger : list (LogLevel * string) }.

Definition set_session (o : option DiscoverySession) (a : DiscoveryAgent) : DiscoveryAgent :=
  {| search_client := search_client a;
     kernel_answer := kernel_answer a;
     kernel_document := kernel_document a;
     storage_list_artifacts := storage_list_artifacts a;
     storage_download_artifact := storage_download_artifact a;
     session := o;
     use_search_index := use_search_index a;
     auto_save_interval := auto_save_interval a;
     confidence_threshold := confidence_threshold a;
     answer_cache := answer_cache a;
     clock := clock a;
     working_directory := working_directory a;
     writable := writable a;
     logger := logger a |}.

Definition set_answer_cache (f : gmap string DiscoveryAnswer -> gmap string DiscoveryAnswer)
    (a : DiscoveryAgent) : DiscoveryAgent :=
  {| search_client := search_client a;
     kernel_answer := kernel_answer a;
     kernel_document := kernel_document a;
     storage_list_artifacts := storage_list_artifacts a;
     storage_download_artifact := storage_download_artifact a;
     session := session a;
     use_search_index := use_search_index a;
     auto_save_interval := auto_save_interval a;
     confidence_threshold := confidence_threshold a;
     answer_cache := f (answer_cache a);
     clock := clock a;
     working_directory := working_directory a;
     writable := writable a;
     logger := logger a |}.

Definition set_use_search_index (b : bool) (a : DiscoveryAgent) : DiscoveryAgent :=
  {| search_client := search_client a;
     kernel_answer := kernel_answer a;
     kernel_document := kernel_document a;
     storage_list_artifacts := storage_list_artifacts a;
     storage_download_artifact := storage_download_artifact a;
     session := session a;
     use_search_index := b;
     auto_save_interval := auto_save_interval a;
     confidence_threshold := confidence_threshold a;
     answer_cache := answer_cache a;
     clock := clock a;
     working_directory := working_directory a;
     writable := writable a;
     logger := logger a |}.

Definition set_working_directory (f : gmap string file -> gmap string file)
    (a : DiscoveryAgent) : DiscoveryAgent :=
  {| search_client := search_client a;
     kernel_answer := kernel_answer a;
     kernel_document := kernel_document a;
     storage_list_artifacts := storage_list_artifacts a;
     storage_download_artifact := storage_download_artifact a;
     session := session a;
     use_search_index := use_search_index a;
     auto_save_interval := auto_save_interval a;
     confidence_threshold := confidence_threshold a;
     answer_cache := answer_cache a;
     clock := clock a;
     working_directory := f (working_directory a);
     writable := writable a;
     logger := logger a |}.

Definition set_logger (f : list (LogLevel * string) -> list (LogLevel * string))
    (a : DiscoveryAgent) : DiscoveryAgent :=
  {| search_client := search_client a;
     kernel_answer := kernel_answer a;
     kernel_document := kernel_document a;
     storage_list_artifacts := storage_list_artifacts a;
     storage_download_artifact := storage_download_artifact a;
     session := session a;
     use_search_index := use_search_index a;
     auto_save_interval := auto_save_interval a;
     confidence_threshold := confidence_threshold a;
     answer_cache := answer_cache a;
     clock := clock a;
     working_directory := working_directory a;
     writable := writable a;
     logger := f (logger a) |}.

(** [DiscoveryAgent.__init__]: the attributes it fixes, for given
    collaborators and environment. *)
Definition new_DiscoveryAgent
    (search : string -> result (list search_hit))
    (chat_answer : DiscoveryQuestion -> list search_hit -> result chat_reply)
    (chat_document : string -> string -> result (list chat_item))
    (list_artifacts : result (list string)) (download_artifact : string -> result string)
    (now : datetime) (cwd : gmap string file) (can_write : string -> bool)
    : DiscoveryAgent :=
  {| search_client := search;
     kernel_answer := chat_answer;
     kernel_document := chat_document;
     storage_list_artifacts := list_artifacts;
     storage_download_artifact := download_artifact;
     session := None;
     use_search_index := true;
     auto_save_interval := 5;
     confidence_threshold := (85 # 100)%Q;
     answer_cache := ∅;
     clock := now;
     working_directory := cwd;
     writable := can_write;
     logger := [] |}.

Definition exn_name (e : exn) : string :=
  match e with
  | KeyError k => "KeyError: " +:+ k
  | ValueError m => "ValueError: " +:+ m
  | TypeError m => "TypeError: " +:+ m
  | AttributeError m => "AttributeError: " +:+ m
  | ZeroDivisionError => "ZeroDivisionError"
  | EOFError => "EOFError"
  | OSError p => "OSError: " +:+ p
  | JSONDecodeError p => "JSONDecodeError: " +:+ p
  | IndexError => "IndexError"
  | CollaboratorError => "CollaboratorError"
  end.

(** [logger.<level>(msg)].  Messages keep their text and their string
    arguments; formatted floats are left out. *)
Definition log (level : LogLevel) (msg : string) : M DiscoveryAgent unit :=
  modify (set_logger (fun l => l ++ [(level, msg)])).

(** [self.session], for an attribute access on it. *)
Definition the_session : M DiscoveryAgent DiscoverySession :=
  a <- get ;;
  match session a with
  | Some s => ret s
  | None => raise (AttributeError "'NoneType' object has no attribute")
  end.

(** An in-place update of the object [self.session] refers to. *)
Definition update_session (f : DiscoverySession -> DiscoverySession) : M DiscoveryAgent unit :=
  s <- the_session ;;
  modify (set_session (Some (f s))).

(** [for x in l: acc = body x acc], the loop's local variables being [acc] *)
Fixpoint for_fold {S A B} (l : list A) (acc : B) (body : A -> B -> M S B) : M S B :=
  match l with
  | [] => ret acc
  | x :: l' => acc' <- body x acc ;; for_fold l' acc' body
  end.

(** [_extract_answer_from_search_results] *)
Definition _extract_answer_from_search_results
    (q : DiscoveryQuestion) (search_results : list search_hit)
    : M DiscoveryAgent (option DiscoveryAnswer) :=
  match search_results with
  | [] => ret None
  | first :: _ =>
      try_except
        (a <- get ;;
         data <- lift_result (kernel_answer a q search_results) ;;
         match reply_answer data with
         | Some text =>
             if truthy text then
               ret (Some {| question_id := id q;
                            answer := text;
                            source := "search_index";
                            confidence := default (8 # 10)%Q (reply_confidence data);
                            document_reference :=
                              default (Some (default "unknown" (hit_blob_name first)))
                                      (reply_source_document data);
                            notes := None |})
             else ret None
         | None => ret None
         end)
        (fun e =>
           log LOG_ERROR ("Error extracting answer for " +:+ id q +:+ ": " +:+ exn_name e) ;;;
           ret None)
  end.

(** [documents_used.add(x)] on a set kept as a duplicate-free list *)
Definition set_add (x : option string) (l : list (option string)) : list (option string) :=
  if bool_decide (x ∈ l) then l else l ++ [x].

(** The body of the inner loop of [_analyze_with_search_index], on the
    local variables [(answers_found, documents_used)]. *)
Definition analyze_question (q : DiscoveryQuestion)
    (locals : nat * list (option string))
    : M DiscoveryAgent (nat * list (option string)) :=
  s <- the_session ;;
  if bool_decide (is_Some (answers s !! id q)) then ret locals
  else
    try_except
      (a <- get ;;
       let search_query := question q +:+ " " +:+ default EmptyString (help_text q) in
       search_results <- lift_result (search_client a search_query) ;;
       match search_results with
       | [] => ret locals
       | _ =>
           found <- _extract_answer_from_search_results q search_results ;;
           match found with
           | Some ans =>
               if Qle_bool (confidence_threshold a) (confidence ans) then
                 update_session (set_answers <[id q := ans]>) ;;;
                 log LOG_INFO ("Auto-answered " +:+ id q) ;;;
                 ret (S (fst locals), set_add (document_reference ans) (snd locals))
               else
                 modify (set_answer_cache <[id q := ans]>) ;;;
                 log LOG_DEBUG ("Cached low-confidence answer for " +:+ id q) ;;;
                 ret locals
           | None => ret locals
           end
       end)
      (fun e =>
         log LOG_ERROR ("Error searching for " +:+ id q +:+ ": " +:+ exn_name e) ;;;
         ret locals).

(** The two nested loops of [_analyze_with_search_index], from the initial
    values of the local variables *)
Definition analyze_loops : M DiscoveryAgent (nat * list (option string)) :=
  for_fold DiscoveryCategory_members (0, [])
    (fun category locals =>
       for_fold (get_questions_by_category category) locals analyze_question).

(** [_analyze_with_search_index] *)
Definition _analyze_with_search_index : M DiscoveryAgent (nat * list (option string)) :=
  log LOG_INFO "Using Azure AI Search for optimized document analysis..." ;;;
  locals <- analyze_loops ;;
  update_session (set_documents_analyzed (fun _ => snd locals)) ;;;
  update_session update_completion ;;;
  log LOG_INFO ("Extracted " +:+ pretty (fst locals) +:+ " answers from " +:+
                pretty (length (snd locals)) +:+ " documents using search index") ;;;
  s <- the_session ;;
  ret (fst locals, documents_analyzed s).

(** [item[key]] on a parsed JSON object *)
Definition item_getitem {A} (key : string) (o : option A) : result A :=
  match o with
  | Some v => Ok v
  | None => Raise (KeyError key)
  end.

(** The body of the loop of [_extract_answers_from_document] *)
Definition store_document_item (document_name : string) (item : chat_item)
    (stored : list DiscoveryAnswer) : M DiscoveryAgent (list DiscoveryAnswer) :=
  qid <- lift_result (item_getitem "question_id" (item_question_id item)) ;;
  text <- lift_result (item_getitem "answer" (item_answer item)) ;;
  let ans := {| question_id := qid;
                   answer := text;
                   source := "document";
                   confidence := default (8 # 10)%Q (item_confidence item);
                   document_reference :=
                     default (Some document_name) (item_document_reference item);
                   notes := None |} in
  update_session (set_answers <[question_id ans := ans]>) ;;;
  ret (stored ++ [ans]).

(** [_extract_answers_from_document].  [text_content] is the attribute of
    that name of the object passed as [content], [None] when the object has
    none; it is read while the prompt is built, before the [try]. *)
Definition _extract_answers_from_document (document_name : string)
    (text_content : option string) : M DiscoveryAgent (list DiscoveryAnswer) :=
  match text_content with
  | None => raise (AttributeError "object has no attribute 'text_content'")
  | Some text =>
      try_except
        (a <- get ;;
         extracted_data <- lift_result (kernel_document a document_name text) ;;
         for_fold extracted_data [] (store_document_item document_name))
        (fun e =>
           log LOG_ERROR ("Error extracting answers: " +:+ exn_name e) ;;;
           ret [])
  end.

(** The body of the loop of [_analyze_from_blob_storage], on the local
    variable [answers_found] *)
Definition analyze_artifact (artifact : string) (answers_found : nat)
    : M DiscoveryAgent nat :=
  try_except
    (log LOG_INFO ("Processing document: " +:+ artifact) ;;;
     a <- get ;;
     content <- lift_result (storage_download_artifact a artifact) ;;
     processed <- lift_result (document_processor_process artifact content) ;;
     extracted_answers <-
       _extract_answers_from_document artifact (ProcessedContent_text_content processed) ;;
     update_session (set_documents_analyzed (fun l => l ++ [Some artifact])) ;;;
     log LOG_INFO ("Extracted " +:+ pretty (length extracted_answers) +:+ " answers from "
                   +:+ artifact) ;;;
     ret (answers_found + length extracted_answers))
    (fun e =>
       log LOG_ERROR ("Error processing " +:+ artifact +:+ ": " +:+ exn_name e) ;;;
       ret answers_found).

(** [_analyze_from_blob_storage] *)
Definition _analyze_from_blob_storage : M DiscoveryAgent (nat * list (option string)) :=
  log LOG_INFO "Retrieving artifacts from blob storage..." ;;;
  a <- get ;;
  artifacts <- lift_result (storage_list_artifacts a) ;;
  match artifacts with
  | [] =>
      log LOG_WARNING "No documents found in blob storage" ;;;
      ret (0, [])
  | _ =>
      log LOG_INFO ("Found " +:+ pretty (length artifacts) +:+ " documents to analyze") ;;;
      answers_found <- for_fold artifacts 0 analyze_artifact ;;
      update_session update_completion ;;;
      s <- the_session ;;
      ret (answers_found, documents_analyzed s)
  end.

(** [analyze_documents] *)
Definition analyze_documents : M DiscoveryAgent (nat * list (option string)) :=
  a <- get ;;
  match session a with
  | None =>
      raise (ValueError "No active discovery session. Call start_discovery_workshop() first.")
  | Some _ =>
      if use_search_index a then
        try_except _analyze_with_search_index
          (fun e =>
             log LOG_WARNING ("Search index not available: " +:+ exn_name e +:+
                              ". Falling back to direct blob access.") ;;;
             modify (set_use_search_index false) ;;;
             _analyze_from_blob_storage)
      else _analyze_from_blob_storage
  end.

(** The body of the loop of [get_missing_information] *)
Definition missing_step (priority_filter : option InformationPriority)
    (session_answers : gmap string DiscoveryAnswer)
    (missing : list DiscoveryQuestion) (item : string * DiscoveryQuestion)
    : list DiscoveryQuestion :=
  let '(qid, q) := item in
  match priority_filter with
  | Some p =>
      if bool_decide (priority q ≠ p) then missing
      else if bool_decide (session_answers !! qid = None) then missing ++ [q]
      else missing
  | None =>
      if bool_decide (session_answers !! qid = None) then missing ++ [q]
      else missing
  end.

(** [get_missing_information] *)
Definition get_missing_information (a : DiscoveryAgent)
    (priority_filter : option InformationPriority) : list DiscoveryQuestion :=
  match session a with
  | None => []
  | Some s => fold_left (missing_step priority_filter (answers s)) DISCOVERY_QUESTIONS []
  end.

(** [get_critical_gaps] *)
Definition get_critical_gaps (a : DiscoveryAgent) : list DiscoveryQuestion :=
  get_missing_information a (Some CRITICAL).

(** [get_cached_answers_for_review] *)
Definition get_cached_answers_for_review (a : DiscoveryAgent) : gmap string DiscoveryAnswer :=
  answer_cache a.

(** [round(x, 2)] on an exact value: to the nearest hundredth, ties to even *)
Definition round_half_even (x : Q) : Z :=
  let f := Qfloor x in
  match ((x - inject_Z f) ?= (1 # 2))%Q with
  | Lt => f
  | Gt => (f + 1)%Z
  | Eq => if Z.even f then f else (f + 1)%Z
  end.

Definition round2 (x : Q) : Q := (inject_Z (round_half_even (x * 100)) / 100)%Q.

(** [sum(1 for x in l if p x)] where the test may raise *)
Fixpoint count_result {A} (p : A -> result bool) (l : list A) : result nat :=
  match l with
  | [] => Ok 0
  | x :: l' =>
      bind_result (p x) (fun b =>
      bind_result (count_result p l') (fun n => Ok (if b then S n else n)))
  end.

Definition count_if {A} (p : A -> bool) (l : list A) : nat := length (List.filter p l).

(** [get_discovery_summary]; [None] is the empty dictionary returned
    without a session. *)
Definition get_discovery_summary (a : DiscoveryAgent) : result (option summary) :=
  match session a with
  | None => Ok None
  | Some s =>
      let values := (map_to_list (answers s)).*2 in
      let document_answers := count_if (fun x => String.eqb (source x) "document") values in
      let user_answers := count_if (fun x => String.eqb (source x) "user_input") values in
      bind_result
        (count_result
           (fun qid => bind_result (dict_getitem DISCOVERY_QUESTIONS qid)
                         (fun q => Ok (bool_decide (priority q = CRITICAL))))
           (map_to_list (answers s)).*1)
        (fun critical_answered =>
           let critical_total := length get_critical_questions in
           let by_category :=
             map (fun c =>
                    let category_questions := get_questions_by_category c in
                    let answered :=
                      count_if (fun q => bool_decide (is_Some (answers s !! id q)))
                               category_questions in
                    (category_value c,
                     {| cs_answered := answered;
                        cs_total := length category_questions;
                        cs_percentage :=
                          match category_questions with
                          | [] => 0
                          | _ => percentage_of answered (length category_questions)
                          end |}))
                DiscoveryCategory_members in
           Ok (Some
             {| sm_session_id := session_id s;
                sm_timestamp := isoformat (timestamp s);
                sm_total_questions := get_total_count;
                sm_answered := get_answered_count s;
                sm_completion_percentage := round2 (completion_percentage s);
                sm_documents_analyzed := length (documents_analyzed s);
                sm_answers_from_documents := document_answers;
                sm_answers_from_user := user_answers;
                sm_critical_questions :=
                  {| cs_answered := critical_answered;
                     cs_total := critical_total;
                     cs_percentage :=
                       if (0 <? critical_total)%nat
                       then round2 (percentage_of critical_answered critical_total)
                       else 0 |};
                sm_by_category := by_category;
                sm_missing_critical := map question (get_critical_gaps a) |}))
  end.

(** The dictionary built by [export_discovery_results] *)
Definition build_results (a : DiscoveryAgent) (s : DiscoverySession) : result results :=
  bind_result (get_discovery_summary a) (fun sm =>
  bind_result
    (map_result
       (fun '(qid, ans) =>
          bind_result (dict_getitem DISCOVERY_QUESTIONS qid) (fun q =>
          Ok {| ad_question_id := Some qid;
                ad_question := Some (question q);
                ad_category := Some (category_value (category q));
                ad_priority := Some (priority_value (priority q));
                ad_answer := Some (answer ans);
                ad_source := Some (source ans);
                ad_confidence := Some (confidence ans);
                ad_document_reference := document_reference ans |}))
       (map_to_list (answers s)))
    (fun exported =>
       Ok {| r_session := Some {| sd_id := Some (session_id s);
                                  sd_timestamp := Some (isoformat (timestamp s));
                                  sd_completion := Some (completion_percentage s) |};
             r_summary := sm;
             r_answers := Some exported;
             r_missing_information :=
               Some (map (fun q => {| md_question_id := id q;
                                      md_question := question q;
                                      md_category := category_value (category q);
                                      md_priority := priority_value (priority q);
                                      md_help_text := help_text q;
                                      md_examples := examples q |})
                         (get_missing_information a None)) |})).

(** [open(path, 'w')] followed by [json.dump]: the file is created, or
    replaced, when the path can be opened for writing; otherwise [open]
    raises and no file changes.  The snapshot holds strings, numbers, lists
    and [None] only, so [json.dump] itself does not raise. *)
Definition write_json (path : string) (r : results) : M DiscoveryAgent unit :=
  a <- get ;;
  if writable a path then
    modify (set_working_directory
              <[path := {| ctime := epoch (clock a); content := Json r |}]>)
  else raise (OSError path).

(** [export_discovery_results] *)
Definition export_discovery_results (output_path : string) : M DiscoveryAgent unit :=
  a <- get ;;
  match session a with
  | None => raise (ValueError "No active discovery session")
  | Some s =>
      r <- lift_result (build_results a s) ;;
      write_json output_path r ;;;
      log LOG_INFO ("Discovery results exported to " +:+ output_path)
  end.

(** [_auto_save_checkpoint] *)
Definition _auto_save_checkpoint : M DiscoveryAgent unit :=
  try_except
    (s <- the_session ;;
     let checkpoint_file := "checkpoint_" +:+ session_id s +:+ ".json" in
     export_discovery_results checkpoint_file ;;;
     log LOG_INFO ("Auto-saved checkpoint: " +:+ checkpoint_file))
    (fun e => log LOG_WARNING ("Failed to auto-save checkpoint: " +:+ exn_name e)).

(** The body of the loops of [import_discovery_results] and
    [_auto_load_previous_session] *)
Definition load_answer (data : answer_data) : M DiscoveryAgent unit :=
  qid <- lift_result (item_getitem "question_id" (ad_question_id data)) ;;
  text <- lift_result (item_getitem "answer" (ad_answer data)) ;;
  src <- lift_result (item_getitem "source" (ad_source data)) ;;
  conf <- lift_result (item_getitem "confidence" (ad_confidence data)) ;;
  let ans := {| question_id := qid;
                answer := text;
                source := src;
                confidence := conf;
                document_reference := ad_document_reference data;
                notes := None |} in
  update_session (set_answers <[qid := ans]>).

(** [open(path, 'r')] followed by [json.load] *)
Definition read_json (path : string) : M DiscoveryAgent results :=
  a <- get ;;
  match working_directory a !! path with
  | None => raise (OSError path)
  | Some f =>
      match content f with
      | Json r => ret r
      | NotJson => raise (JSONDecodeError path)
      end
  end.

(** [import_discovery_results] *)
Definition import_discovery_results (input_path : string) : M DiscoveryAgent bool :=
  try_except
    (r <- read_json input_path ;;
     a <- get ;;
     let sid :=
       match r_session r with
       | Some sd => default ("resumed_" +:+ strftime_Ymd_HMS (clock a)) (sd_id sd)
       | None => "resumed_" +:+ strftime_Ymd_HMS (clock a)
       end in
     modify (set_session (Some (new_DiscoverySession sid (clock a)))) ;;;
     for_each (default [] (r_answers r)) load_answer ;;;
     update_session update_completion ;;;
     s <- the_session ;;
     log LOG_INFO ("Imported " +:+ pretty (size (answers s)) +:+ " answers from " +:+ input_path) ;;;
     ret true)
    (fun e =>
       log LOG_ERROR ("Failed to import discovery results: " +:+ exn_name e) ;;;
       ret false).

Definition endswith (s p : string) : bool := String.prefix (String.rev p) (String.rev s).

(** [glob.glob] of the pattern [discovery_results_*.json] on the working
    directory *)
Definition glob_discovery_results (cwd : gmap string file) : list (string * file) :=
  List.filter
    (fun '(name, _) =>
       startswith name "discovery_results_" && endswith name ".json"
       && (String.length "discovery_results_.json" <=? String.length name)%nat
       && negb (contains "/" name))
    (map_to_list cwd).

(** [max(result_files, key=os.path.getctime)]: the first file of greatest
    [ctime] *)
Definition latest_by_ctime (result_files : list (string * file)) : option (string * file) :=
  fold_left
    (fun best x =>
       match best with
       | None => Some x
       | Some b => if (ctime (snd b) <? ctime (snd x))%nat then Some x else Some b
       end)
    result_files None.

(** [_auto_load_previous_session] *)
Definition _auto_load_previous_session : M DiscoveryAgent unit :=
  try_except
    (a <- get ;;
     match latest_by_ctime (glob_discovery_results (working_directory a)) with
     | None => log LOG_INFO "No previous session found"
     | Some (latest, _) =>
         log LOG_INFO ("Found previous session: " +:+ latest) ;;;
         r <- read_json latest ;;
         loaded_count <- for_fold (default [] (r_answers r)) 0
                           (fun data n => load_answer data ;;; ret (S n)) ;;
         update_session update_completion ;;;
         log LOG_INFO ("Auto-loaded " +:+ pretty loaded_count +:+ " answers from previous session")
     end)
    (fun e => log LOG_WARNING ("Failed to auto-load previous session: " +:+ exn_name e)).

(** ** discovery_workshop.py: the interactive flow

    The console is the sequence of replies the user gives to the
    successive [Confirm.ask] and [Prompt.ask] calls; what is printed is not
    modelled. *)

Record DiscoveryWorkshopCLI := {
  agent : DiscoveryAgent;
  cli_session_id : string;
  last_question : option DiscoveryQuestion;
  answers_this_session : list (DiscoveryQuestion * string);
  confirm_replies : list bool;
  prompt_replies : list string }.

Definition set_agent (a : DiscoveryAgent) (c : DiscoveryWorkshopCLI) : DiscoveryWorkshopCLI :=
  {| agent := a;
     cli_session_id := cli_session_id c;
     last_question := last_question c;
     answers_this_session := answers_this_session c;
     confirm_replies := confirm_replies c;
     prompt_replies := prompt_replies c |}.

Definition set_last_question (q : DiscoveryQuestion) (c : DiscoveryWorkshopCLI)
    : DiscoveryWorkshopCLI :=
  {| agent := agent c;
     cli_session_id := cli_session_id c;
     last_question := Some q;
     answers_this_session := answers_this_session c;
     confirm_replies := confirm_replies c;
     prompt_replies := prompt_replies c |}.

Definition append_answer_this_session (q : DiscoveryQuestion) (text : string)
    (c : DiscoveryWorkshopCLI) : DiscoveryWorkshopCLI :=
  {| agent := agent c;
     cli_session_id := cli_session_id c;
     last_question := last_question c;
     answers_this_session := answers_this_session c ++ [(q, text)];
     confirm_replies := confirm_replies c;
     prompt_replies := prompt_replies c |}.

(** A method of [self.agent] called from the CLI *)
Definition on_agent {A} (m : M DiscoveryAgent A) : M DiscoveryWorkshopCLI A :=
  fun c => let '(a', r) := m (agent c) in (set_agent a' c, r).

(** [Confirm.ask(...)] *)
Definition Confirm_ask : M DiscoveryWorkshopCLI bool :=
  fun c =>
    match confirm_replies c with
    | [] => (c, Raise EOFError)
    | b :: rest =>
        ({| agent := agent c;
            cli_session_id := cli_session_id c;
            last_question := last_question c;
            answers_this_session := answers_this_session c;
            confirm_replies := rest;
            prompt_replies := prompt_replies c |}, Ok b)
    end.

(** [Prompt.ask(...)], the default already applied to an empty reply *)
Definition Prompt_ask : M DiscoveryWorkshopCLI string :=
  fun c =>
    match prompt_replies c with
    | [] => (c, Raise EOFError)
    | text :: rest =>
        ({| agent := agent c;
            cli_session_id := cli_session_id c;
            last_question := last_question c;
            answers_this_session := answers_this_session c;
            confirm_replies := confirm_replies c;
            prompt_replies := rest |}, Ok text)
    end.

(** [InteractiveHelper.process_command]: the help screens only print. *)
Definition process_command (command : string) : result bool :=
  match command with
  | String "?" rest =>
      match strip rest with
      | EmptyString => Raise IndexError
      | _ => Ok true
      end
  | _ => Ok false
  end.

Section Interactive.

Variable validate_ip_range : string -> list ValidationResult.

(** [DiscoveryAgent.ask_user_question] *)
Definition ask_user_question (q : DiscoveryQuestion) (user_answer : string)
    : M DiscoveryAgent (DiscoveryAnswer * list ValidationResult) :=
  let ans := {| question_id := id q;
                answer := user_answer;
                source := "user_input";
                confidence := 1;
                document_reference := None;
                notes := Some "Provided during interactive discovery session" |} in
  let validations := validate_answer validate_ip_range (id q) user_answer in
  update_session (set_answers <[id q := ans]>) ;;;
  update_session update_completion ;;;
  a <- get ;;
  s <- the_session ;;
  match auto_save_interval a with
  | O => raise ZeroDivisionError
  | S _ =>
      (if (size (answers s) mod auto_save_interval a =? 0)%nat
       then _auto_save_checkpoint else ret tt) ;;;
      ret (ans, validations)
  end.

(** [_edit_last_answer] *)
Definition _edit_last_answer : M DiscoveryWorkshopCLI unit :=
  c <- get ;;
  match last_question c with
  | None => ret tt
  | Some last =>
      s <- on_agent the_session ;;
      match answers s !! id last with
      | None => ret tt
      | Some last_answer =>
          new_answer <- Prompt_ask ;;
          if bool_decide (new_answer ≠ answer last_answer)
          then on_agent (ask_user_question last new_answer) ;;; ret tt
          else ret tt
      end
  end.

(** [_ask_single_question], first half: the candidate pending for the
    question, if there is one, is shown and the user asked to accept it.
    Returns whether the question is settled. *)
Definition offer_cached_answer (q : DiscoveryQuestion) : M DiscoveryWorkshopCLI bool :=
  c <- get ;;
  match answer_cache (agent c) !! id q with
  | Some cached =>
      accept <- Confirm_ask ;;
      if accept then
        on_agent (update_session (set_answers <[id q := cached]>)) ;;;
        on_agent (modify (set_answer_cache (delete (id q)))) ;;;
        modify (set_last_question q) ;;;
        ret true
      else ret false
  | None => ret false
  end.

(** [_ask_single_question], second half: the user's reply is read and
    acted on; [ask_again] is the call of [_ask_single_question] on the same
    question. *)
Definition read_answer (ask_again : M DiscoveryWorkshopCLI unit) (q : DiscoveryQuestion)
    : M DiscoveryWorkshopCLI unit :=
  text <- Prompt_ask ;;
  handled <- (if startswith text "?" then lift_result (process_command text)
              else ret false) ;;
  if handled then ask_again
  else
    c <- get ;;
    if String.eqb (lower text) "e" && bool_decide (is_Some (last_question c)) then
      _edit_last_answer ;;;
      ask_again
    else if truthy text && truthy (strip text)
            && negb (String.eqb (lower text) "skip") then
      on_agent (ask_user_question q (strip text)) ;;;
      modify (set_last_question q) ;;;
      modify (append_answer_this_session q (strip text))
    else ret tt.

(** [_ask_single_question].  Every call to itself follows a [Prompt.ask],
    so the replies still to come bound the depth of the recursion; [fuel]
    is that bound. *)
Fixpoint _ask_single_question_rec (fuel : nat) (q : DiscoveryQuestion)
    : M DiscoveryWorkshopCLI unit :=
  match fuel with
  | O => raise EOFError
  | S fuel' =>
      settled <- offer_cached_answer q ;;
      if settled then ret tt
      else read_answer (_ask_single_question_rec fuel' q) q
  end.

Definition _ask_single_question (q : DiscoveryQuestion) : M DiscoveryWorkshopCLI unit :=
  fun c => _ask_single_question_rec (S (length (prompt_replies c))) q c.

(** [ask_critical_questions] *)
Definition ask_critical_questions : M DiscoveryWorkshopCLI unit :=
  c <- get ;;
  for_each (get_critical_gaps (agent c)) _ask_single_question.

(** [ask_questions_by_category] *)
Definition ask_questions_by_category (c : DiscoveryCategory) : M DiscoveryWorkshopCLI unit :=
  s <- on_agent the_session ;;
  let missing := List.filter (fun q => bool_decide (answers s !! id q = None))
                             (get_questions_by_category c) in
  for_each missing _ask_single_question.

(** The body of the loop of [review_and_edit_answers] *)
Definition review_answer (item : string * DiscoveryAnswer) : M DiscoveryWorkshopCLI unit :=
  let '(qid, ans) := item in
  q <- lift_result (dict_getitem DISCOVERY_QUESTIONS qid) ;;
  choice <- Prompt_ask ;;
  if String.eqb choice "e" then
    new_answer <- Prompt_ask ;;
    if bool_decide (new_answer ≠ answer ans)
    then on_agent (ask_user_question q new_answer) ;;; ret tt
    else ret tt
  else if String.eqb choice "d" then
    confirmed <- Confirm_ask ;;
    if confirmed then on_agent (update_session (set_answers (delete qid)))
    else ret tt
  else ret tt.

(** [review_and_edit_answers] *)
Definition review_and_edit_answers : M DiscoveryWorkshopCLI unit :=
  review <- Confirm_ask ;;
  if review then
    s <- on_agent the_session ;;
    for_each (map_to_list (answers s)) review_answer
  else ret tt.

End Interactive.

(** ** Vocabulary of the properties *)

(** The answer [ask_user_question] builds. *)
Definition user_answer_of (q : DiscoveryQuestion) (text : string) : DiscoveryAnswer :=
  {| question_id := id q;
     answer := text;
     source := "user_input";
     confidence := 1;
     document_reference := None;
     notes := Some "Provided during interactive discovery session" |}.

(** The query and the candidate of one iteration. *)
Definition search_query (q : DiscoveryQuestion) : string :=
  question q +:+ " " +:+ default EmptyString (help_text q).

Definition search_candidate (q : DiscoveryQuestion) (first : search_hit)
    (data : chat_reply) (text : string) : DiscoveryAnswer :=
  {| question_id := id q;
     answer := text;
     source := "search_index";
     confidence := default (8 # 10)%Q (reply_confidence data);
     document_reference :=
       default (Some (default "unknown" (hit_blob_name first))) (reply_source_document data);
     notes := None |}.

(** The specification's formula for the completion percentage. *)
Definition completion_consistent (s : DiscoverySession) : Prop :=
  (completion_percentage s
   == 100 * Q_of_nat (size (answers s)) / Q_of_nat (length DISCOVERY_QUESTIONS))%Q.

(** [a'] differs from [a] at most in its files and log. *)
Definition same_attributes (a a' : DiscoveryAgent) : Prop :=
  session a' = session a ∧ answer_cache a' = answer_cache a
  ∧ confidence_threshold a' = confidence_threshold a
  ∧ auto_save_interval a' = auto_save_interval a.

(** The session after the pass still has every answer it had before. *)
Definition keeps_answers (s : DiscoverySession) (a' : DiscoveryAgent) : Prop :=
  exists s', session a' = Some s' ∧ answers s ⊆ answers s'.

(** What one iteration of the search-index pass does to the agent. *)
Inductive analyze_outcome (q : DiscoveryQuestion) (a a' : DiscoveryAgent) : Prop :=
| outcome_untouched :
    session a' = session a -> answer_cache a' = answer_cache a ->
    analyze_outcome q a a'
| outcome_accepted s ans :
    session a = Some s -> answers s !! id q = None ->
    Qle_bool (confidence_threshold a) (confidence ans) = true ->
    session a' = Some (set_answers <[id q := ans]> s) ->
    answer_cache a' = answer_cache a ->
    analyze_outcome q a a'
| outcome_cached s ans :
    session a = Some s -> answers s !! id q = None ->
    Qle_bool (confidence_threshold a) (confidence ans) = false ->
    session a' = session a ->
    answer_cache a' = <[id q := ans]> (answer_cache a) ->
    analyze_outcome q a a'.

Definition is_missing (priority_filter : option InformationPriority)
    (session_answers : gmap string DiscoveryAnswer) (item : string * DiscoveryQuestion) : bool :=
  match priority_filter with
  | Some p => bool_decide (priority (snd item) = p)
  | None => true
  end && bool_decide (session_answers !! fst item = None).

(** Every answered id is a key of the catalog. *)
Definition answers_in_catalog (s : DiscoverySession) : Prop :=
  forall k, is_Some (answers s !! k) -> is_Some (dict_get DISCOVERY_QUESTIONS k).

(** The snapshot entry [d] carries the fields of the answer [x] stored
    under [k]. *)
Definition exports (kx : string * DiscoveryAnswer) (d : answer_data) : Prop :=
  ad_question_id d = Some kx.1 ∧ ad_answer d = Some (answer kx.2)
  ∧ ad_source d = Some (source kx.2) ∧ ad_confidence d = Some (confidence kx.2)
  ∧ ad_document_reference d = document_reference kx.2.

(** The state [export_discovery_results] leaves when the snapshot can be
    built. *)
Definition exported_to (path : string) (r : results) (a : DiscoveryAgent) : DiscoveryAgent :=
  set_logger (fun l => l ++ [(LOG_INFO, "Discovery results exported to " +:+ path)])
    (set_working_directory
       <[path := {| ctime := epoch (clock a); content := Json r |}]> a).

(** The file [_auto_save_checkpoint] writes for the session [s]. *)
Definition checkpoint_file (s : DiscoverySession) : string :=
  "checkpoint_" +:+ session_id s +:+ ".json".

(** The answer [load_answer] builds from a snapshot entry that carried the
    fields of [x] under [k]. *)
Definition reimported (k : string) (x : DiscoveryAnswer) : DiscoveryAnswer :=
  {| question_id := k;
     answer := answer x;
     source := source x;
     confidence := confidence x;
     document_reference := document_reference x;
     notes := None |}.

Definition insert_reimported (m : gmap string DiscoveryAnswer)
    (kx : string * DiscoveryAnswer) : gmap string DiscoveryAnswer :=
  <[kx.1 := reimported kx.1 kx.2]> m.

(** A snapshot entry that has the four keys [load_answer] reads. *)
Definition well_formed_entry (d : answer_data) : Prop :=
  is_Some (ad_question_id d) ∧ is_Some (ad_answer d)
  ∧ is_Some (ad_source d) ∧ is_Some (ad_confidence d).

(** ** Sample states

    Concrete collaborators, agents and consoles on which the properties
    below are exercised. *)

Definition silent_search : string -> result (list search_hit) := fun _ => Ok [].

Definition silent_chat_answer : DiscoveryQuestion -> list search_hit -> result chat_reply :=
  fun _ _ => Raise CollaboratorError.

Definition silent_chat_document : string -> string -> result (list chat_item) :=
  fun _ _ => Ok [].

Definition no_artifacts : result (list string) := Ok [].

Definition no_download : string -> result string := fun _ => Raise CollaboratorError.

Definition noon : datetime :=
  {| epoch := 1000;
     isoformat := "2024-01-01T12:00:00";
     strftime_Ymd_HMS := "20240101_120000" |}.

(** A working directory without subdirectories: a path can be opened for
    writing when it names a file of the directory itself. *)
Definition flat_directory : string -> bool :=
  fun path => truthy path && negb (contains "/" path).

(** The agent as [__init__] leaves it, in an empty working directory. *)
Definition fresh_agent : DiscoveryAgent :=
  new_DiscoveryAgent silent_search silent_chat_answer silent_chat_document no_artifacts no_download noon ∅ flat_directory.

(** The same agent with a session just started. *)
Definition started_agent : DiscoveryAgent :=
  set_session (Some (new_DiscoverySession "workshop_20240101_120000" noon)) fresh_agent.

(** A validator for the IP-range question that reports nothing. *)
Definition no_ip_findings : string -> list ValidationResult := fun _ => [].

(** The catalog entry for [qid]; a question that is no longer in the
    catalog otherwise. *)
Definition retired_question (qid : string) : DiscoveryQuestion :=
  {| id := qid;
     category := BUSINESS_CONTEXT;
     question := "Which legacy systems will be retired?";
     priority := LOW;
     help_text := None;
     examples := None;
     validation_pattern := None;
     default_value := None;
     related_questions := None |}.

Definition catalog_question (qid : string) : DiscoveryQuestion :=
  default (retired_question qid) (dict_get DISCOVERY_QUESTIONS qid).

(** A low-confidence candidate for [net_002], as the search pass caches it. *)
Definition pending_net_002 : DiscoveryAnswer :=
  {| question_id := "net_002";
     answer := "Two on-premises datacenters";
     source := "search_index";
     confidence := (1 # 2)%Q;
     document_reference := Some "network-overview.docx";
     notes := None |}.

(** A started agent with that candidate pending review. *)
Definition agent_with_pending : DiscoveryAgent :=
  set_answer_cache <["net_002" := pending_net_002]> started_agent.

(** The CLI around an agent, the user about to give the listed replies. *)
Definition cli_with (a : DiscoveryAgent) (confirms : list bool) (prompts : list string)
    : DiscoveryWorkshopCLI :=
  {| agent := a;
     cli_session_id := "workshop_20240101_120000";
     last_question := None;
     answers_this_session := [];
     confirm_replies := confirms;
     prompt_replies := prompts |}.

(** The answer the session of [a] holds for [k], if any. *)
Definition answer_of (a : DiscoveryAgent) (k : string) : option DiscoveryAnswer :=
  match session a with
  | Some s => answers s !! k
  | None => None
  end.

(** A search service with one document and a chat model that finds the
    migration driver in it, sure of itself. *)
Definition one_hit_search : string -> result (list search_hit) :=
  fun _ => Ok [ {| hit_blob_name := Some "business-case.docx";
                   hit_content := "The programme exits both datacenters by 2026." |} ].

Definition confident_chat_answer : DiscoveryQuestion -> list search_hit -> result chat_reply :=
  fun _ _ => Ok {| reply_answer := Some "Datacenter exit";
                   reply_confidence := Some (9 # 10)%Q;
                   reply_source_document := Some (Some "business-case.docx") |}.

Definition searching_agent : DiscoveryAgent :=
  set_session (Some (new_DiscoverySession "workshop_20240101_120000" noon))
    (new_DiscoveryAgent one_hit_search confident_chat_answer silent_chat_document no_artifacts no_download noon ∅ flat_directory).

(** A snapshot written when the catalog still had a question [legacy_001]. *)
Definition legacy_entry : answer_data :=
  {| ad_question_id := Some "legacy_001";
     ad_question := Some "Which legacy systems will be retired?";
     ad_category := Some "Business Context";
     ad_priority := Some "low";
     ad_answer := Some "The mainframe";
     ad_source := Some "user_input";
     ad_confidence := Some 1%Q;
     ad_document_reference := None |}.

Definition legacy_snapshot : results :=
  {| r_session := Some {| sd_id := Some "workshop_2023";
                          sd_timestamp := Some "2023-06-01T09:00:00";
                          sd_completion := Some 0%Q |};
     r_summary := None;
     r_answers := Some [legacy_entry];
     r_missing_information := None |}.

Definition agent_with_legacy_file : DiscoveryAgent :=
  set_working_directory
    <["discovery_results_workshop_2023.json" := {| ctime := 500; content := Json legacy_snapshot |}]>
    fresh_agent.

(** A session holding the user's answer to [net_002], and its agent. *)
Definition answered_session : DiscoverySession :=
  update_completion
    (set_answers
       <["net_002" := {| question_id := "net_002";
                         answer := "HQ and DR site";
                         source := "user_input";
                         confidence := 1;
                         document_reference := None;
                         notes := Some "Provided during interactive discovery session" |}]>
       (new_DiscoverySession "workshop_20240101_120000" noon)).

Definition answered_agent : DiscoveryAgent :=
  set_session (Some answered_session) fresh_agent.

(** A chat model that is not sure of what it found. *)
Definition hesitant_chat_answer : DiscoveryQuestion -> list search_hit -> result chat_reply :=
  fun _ _ => Ok {| reply_answer := Some "Probably two datacenters";
                   reply_confidence := Some (1 # 2)%Q;
                   reply_source_document := None |}.

Definition hesitant_agent : DiscoveryAgent :=
  set_session (Some (new_DiscoverySession "workshop_20240101_120000" noon))
    (new_DiscoveryAgent one_hit_search hesitant_chat_answer silent_chat_document no_artifacts no_download noon ∅ flat_directory).

(** A session holding an answer to a question the catalog no longer has. *)
Definition legacy_agent : DiscoveryAgent :=
  set_session
    (Some (set_answers
             <["legacy_001" := {| question_id := "legacy_001";
                                  answer := "The mainframe";
                                  source := "user_input";
                                  confidence := 1;
                                  document_reference := None;
                                  notes := None |}]>
             (new_DiscoverySession "workshop_2023" noon)))
    fresh_agent.

(** A chat model that would read the number of locations out of any
    document it is shown. *)
Definition reading_chat_document : string -> string -> result (list chat_item) :=
  fun _ _ => Ok [ {| item_question_id := Some "net_002";
                     item_answer := Some "Three branch offices";
                     item_confidence := Some (95 # 100)%Q;
                     item_document_reference := None |} ].

(** An agent that has given up on the search index, with two documents in
    blob storage and the user's answer to [net_002] in its session. *)
Definition reading_agent : DiscoveryAgent :=
  set_use_search_index false
    (set_session (Some answered_session)
       (new_DiscoveryAgent silent_search silent_chat_answer reading_chat_document
          (Ok ["design-v1.docx"; "notes.txt"])
          (fun _ => Ok "Three branch offices connect to the hub.")
          noon ∅ flat_directory)).

(** A session of another workshop, holding an answer to [biz_001]. *)
Definition other_session : DiscoverySession :=
  update_completion
    (set_answers
       <["biz_001" := {| question_id := "biz_001";
                         answer := "Datacenter exit";
                         source := "user_input";
                         confidence := 1;
                         document_reference := None;
                         notes := None |}]>
       (new_DiscoverySession "workshop_20231115_090000" noon)).

(** A snapshot whose second entry has lost its [answer] key. *)
Definition truncated_entry : answer_data :=
  {| ad_question_id := Some "net_002";
     ad_question := Some "How many on-premises locations need connectivity?";
     ad_category := Some "Network Design";
     ad_priority := Some "critical";
     ad_answer := None;
     ad_source := Some "user_input";
     ad_confidence := Some 1%Q;
     ad_document_reference := None |}.

Definition truncated_snapshot : results :=
  {| r_session := Some {| sd_id := Some "workshop_2023";
                          sd_timestamp := Some "2023-06-01T09:00:00";
                          sd_completion := Some 0%Q |};
     r_summary := None;
     r_answers := Some ([legacy_entry] ++ truncated_entry :: []);
     r_missing_information := None |}.

Definition truncated_file : file := {| ctime := 500; content := Json truncated_snapshot |}.

Definition agent_with_truncated_file : DiscoveryAgent :=
  set_working_directory <["discovery_results_workshop_2023.json" := truncated_file]>
    answered_agent.

(** A session one answer short of the fifth, and its agent. *)
Definition four_answers : DiscoverySession :=
  update_completion
    (set_answers
       (fun m => foldr (fun qid m' =>
                          <[qid := user_answer_of (catalog_question qid) "To be confirmed"]> m')
                       m ["biz_001"; "biz_002"; "net_001"; "net_003"])
       (new_DiscoverySession "workshop_20240101_120000" noon)).

Definition agent_due_for_checkpoint : DiscoveryAgent :=
  set_session (Some four_answers) fresh_agent.

(** * Properties *)

(** ** The catalog *)

Lemma DISCOVERY_QUESTIONS_keys_are_ids :
  Forall (fun kq => id (snd kq) = fst kq) DISCOVERY_QUESTIONS.
Proof. apply (bool_decide_unpack _). vm_compute. reflexivity. Qed.

Lemma DISCOVERY_QUESTIONS_keys_unique : NoDup (dict_keys DISCOVERY_QUESTIONS).
Proof. apply (bool_decide_unpack _). vm_compute. reflexivity. Qed.

Lemma get_total_count_48 : get_total_count = 48.
Proof. reflexivity. Qed.

(** ** Gap analysis *)

Lemma missing_loop_filter pf m (items : list (string * DiscoveryQuestion)) acc :
  fold_left (missing_step pf m) items acc
  = acc ++ map snd (List.filter (is_missing pf m) items).
Proof.
  revert acc. induction items as [|[k q] items IH]; intros acc; simpl.
  - by rewrite app_nil_r.
  - rewrite IH. unfold is_missing; simpl.
    destruct pf as [p|]; simpl;
      repeat case_bool_decide; simpl; try congruence;
      by rewrite <- ?app_assoc.
Qed.

Lemma missing_items_values p m (items : list (string * DiscoveryQuestion)) :
  Forall (fun kq => id (snd kq) = fst kq) items ->
  map snd (List.filter (is_missing (Some p) m) items)
  = filter (fun q => priority q = p ∧ m !! id q = None) (map snd items).
Proof.
  induction 1 as [|[k q] items Hid _ IH]; [done|].
  simpl in *. subst k. rewrite filter_cons. unfold is_missing at 1; simpl.
  destruct (decide (priority q = p ∧ m !! id q = None)) as [[Hp Hm]|Hn].
  - rewrite !bool_decide_true by done. simpl. by rewrite IH.
  - destruct (bool_decide_reflect (priority q = p)); simpl; [|done].
    destruct (bool_decide_reflect (m !! id q = None)); simpl; [|done].
    by destruct Hn.
Qed.

Lemma filter_nil_iff {A} (P : A -> Prop) `{!forall x, Decision (P x)} (l : list A) :
  filter P l = [] <-> forall x, x ∈ l -> ¬ P x.
Proof.
  split.
  - intros Hnil x Hx HP. by eapply filter_nil_not_elem_of.
  - intros Hall. induction l as [|x l IH]; [done|].
    rewrite filter_cons_False.
    + apply IH. intros y Hy. apply Hall. by right.
    + apply Hall. by left.
Qed.

(** C7.  With a session in place, [get_critical_gaps] returns exactly the
    CRITICAL questions of the catalog whose ids are not keys of
    [session.answers], in the order in which the catalog defines them; and
    it returns the empty list if and only if every CRITICAL question has an
    answer. *)
Theorem get_critical_gaps_exact (a : DiscoveryAgent) (s : DiscoverySession) :
  session a = Some s ->
  get_critical_gaps a
  = filter (fun q => priority q = CRITICAL ∧ answers s !! id q = None)
           (dict_values DISCOVERY_QUESTIONS)
  ∧ (get_critical_gaps a = [] <->
     forall q, q ∈ dict_values DISCOVERY_QUESTIONS ->
               priority q = CRITICAL -> is_Some (answers s !! id q)).
Proof.
  intros Hs.
  assert (Heq : get_critical_gaps a
    = filter (fun q => priority q = CRITICAL ∧ answers s !! id q = None)
             (dict_values DISCOVERY_QUESTIONS)).
  { unfold get_critical_gaps, get_missing_information. rewrite Hs.
    rewrite missing_loop_filter, app_nil_l.
    apply missing_items_values, DISCOVERY_QUESTIONS_keys_are_ids. }
  split; [exact Heq|].
  rewrite Heq, filter_nil_iff. split.
  - intros Hall q Hq Hp. destruct (answers s !! id q) eqn:E; [by eexists|].
    exfalso. by apply (Hall q Hq).
  - intros Hall q Hq [Hp Hnone]. destruct (Hall q Hq Hp) as [x Hx]. congruence.
Qed.

Lemma get_critical_gaps_exact_witness :
  get_critical_gaps started_agent
  = filter (fun q => priority q = CRITICAL ∧ (∅ : gmap string DiscoveryAnswer) !! id q = None)
           (dict_values DISCOVERY_QUESTIONS)
  ∧ (get_critical_gaps started_agent = [] <->
     forall q, q ∈ dict_values DISCOVERY_QUESTIONS ->
               priority q = CRITICAL -> is_Some ((∅ : gmap string DiscoveryAnswer) !! id q)).
Proof.
  apply (get_critical_gaps_exact started_agent
           (new_DiscoverySession "workshop_20240101_120000" noon)).
  reflexivity.
Defined.

Example get_critical_gaps_fresh :
  map id (get_critical_gaps started_agent)
  = ["biz_001"; "biz_002"; "net_001"; "net_002"; "net_003"; "sec_001"; "sec_002";
     "sec_003"; "gov_001"; "gov_005"; "comp_001"; "comp_002"; "dr_001"; "dr_002";
     "cost_001"].
Proof. vm_compute. reflexivity. Qed.

(** ** Validators on sample answers *)

Example validate_connectivity_method_both :
  map severity (validate_connectivity_method "ExpressRoute with VPN backup") = [SUCCESS; SUCCESS].
Proof. reflexivity. Qed.

Example validate_budget_k :
  map severity (validate_budget "about 500 K per year") = [SUCCESS].
Proof. reflexivity. Qed.

Example validate_budget_none :
  map severity (validate_budget "to be decided, with alerts") = [WARNING; SUCCESS].
Proof. reflexivity. Qed.

(** ** Loops and state *)

#[local] Opaque DISCOVERY_QUESTIONS.
Arguments get_discovery_summary : simpl never.
Arguments build_results : simpl never.
Arguments get_missing_information : simpl never.
Arguments get_questions_by_category : simpl never.
Arguments percentage_of : simpl never.
Arguments pretty : simpl never.

Ltac unfold_M :=
  cbv beta iota zeta delta
    [bind ret raise get modify lift_result try_except log the_session
     update_session fst snd] in *.

(** A loop keeps an invariant of the state that each iteration keeps,
    whether or not an iteration raises. *)
Lemma for_fold_invariant {S A B} (I : S -> Prop) (body : A -> B -> M S B) :
  (forall x acc s, I s -> I (fst (body x acc s))) ->
  forall l acc s, I s -> I (fst (for_fold l acc body s)).
Proof.
  intros Hbody l. induction l as [|x l IH]; intros acc s Hs; simpl; [done|].
  unfold bind. specialize (Hbody x acc s Hs).
  destruct (body x acc s) as [s' [acc'|e]]; simpl in *; [by apply IH|done].
Qed.

(** A loop whose iterations return under the invariant returns. *)
Lemma for_fold_returns {S A B} (I : S -> Prop) (body : A -> B -> M S B) :
  (forall x acc s, I s -> I (fst (body x acc s)) ∧ exists acc', snd (body x acc s) = Ok acc') ->
  forall l acc s, I s ->
    I (fst (for_fold l acc body s)) ∧ exists acc', snd (for_fold l acc body s) = Ok acc'.
Proof.
  intros Hbody l. induction l as [|x l IH]; intros acc s Hs; simpl; [by eauto|].
  unfold bind. destruct (Hbody x acc s Hs) as [HI [acc' Hok]].
  destruct (body x acc s) as [s' r]; simpl in *; subst r. by apply IH.
Qed.

Lemma for_each_fold {S A} (body : A -> M S unit) (l : list A) (s : S) :
  for_each l body s = for_fold l tt (fun x _ => body x) s.
Proof.
  revert s. induction l as [|x l IH]; intros s; simpl; [done|].
  unfold bind. destruct (body x s) as [s' [[]|e]]; [apply IH|done].
Qed.

Ltac untouched :=
  split; [apply outcome_untouched; reflexivity|split; [eexists; reflexivity|reflexivity]].

Lemma analyze_question_outcome q locals a s :
  session a = Some s ->
  analyze_outcome q a (fst (analyze_question q locals a))
  ∧ (exists locals', snd (analyze_question q locals a) = Ok locals')
  ∧ confidence_threshold (fst (analyze_question q locals a)) = confidence_threshold a.
Proof.
  intros Hs. unfold analyze_question. unfold_M. rewrite Hs.
  case_bool_decide as Hin; [untouched|].
  assert (Hnone : answers s !! id q = None).
  { destruct (answers s !! id q) eqn:E; [|done]. destruct Hin. by eexists. }
  destruct (search_client a _) as [[|hit hits]|e]; [untouched| |untouched].
  unfold _extract_answer_from_search_results. unfold_M. rewrite ?Hs.
  destruct (kernel_answer a q (hit :: hits)) as [data|e]; [|untouched].
  destruct (reply_answer data) as [text|]; [|untouched].
  destruct (truthy text); [|untouched].
  destruct (Qle_bool _ _) eqn:Hq; unfold_M; rewrite ?Hs; unfold_M.
  - split; [|split; [eexists; reflexivity|reflexivity]].
    eapply outcome_accepted; [exact Hs|exact Hnone|exact Hq|reflexivity|reflexivity].
  - split; [|split; [eexists; reflexivity|reflexivity]].
    eapply outcome_cached; [exact Hs|exact Hnone|exact Hq|reflexivity|reflexivity].
Qed.

(** ** Completion *)

Lemma percentage_of_formula (n : nat) :
  (percentage_of n get_total_count == 100 * Q_of_nat n / Q_of_nat (length DISCOVERY_QUESTIONS))%Q.
Proof.
  unfold percentage_of. change get_total_count with (length DISCOVERY_QUESTIONS).
  assert (Hlen : length DISCOVERY_QUESTIONS = 48) by (vm_compute; reflexivity).
  rewrite Hlen. field. discriminate.
Qed.

Lemma update_completion_consistent (s : DiscoverySession) :
  completion_consistent (update_completion s).
Proof. unfold completion_consistent. simpl. apply percentage_of_formula. Qed.

Lemma percentage_of_injective (n m : nat) :
  (percentage_of n get_total_count == percentage_of m get_total_count)%Q -> n = m.
Proof.
  rewrite !percentage_of_formula.
  assert (Hlen : length DISCOVERY_QUESTIONS = 48) by (vm_compute; reflexivity).
  rewrite Hlen. unfold Q_of_nat, Qeq, Qdiv, Qmult, Qinv, inject_Z. simpl. lia.
Qed.

(** ** Steps that only touch the environment *)

Lemma export_discovery_results_same_attributes path a :
  same_attributes a (fst (export_discovery_results path a)).
Proof.
  unfold export_discovery_results, write_json. unfold_M.
  destruct (session a) as [s|]; [|by repeat split].
  destruct (build_results a s) as [r|e]; [|by repeat split].
  destruct (writable a path); by repeat split.
Qed.

Lemma _auto_save_checkpoint_same_attributes a :
  same_attributes a (fst (_auto_save_checkpoint a))
  ∧ snd (_auto_save_checkpoint a) = Ok tt.
Proof.
  unfold _auto_save_checkpoint. unfold_M.
  destruct (session a) as [s|] eqn:Hs; [|by repeat split].
  pose proof (export_discovery_results_same_attributes
                ("checkpoint_" +:+ session_id s +:+ ".json") a) as Hex.
  destruct (export_discovery_results _ a) as [a' [[]|e]]; simpl in *;
    destruct Hex as (? & ? & ? & ?); by repeat split.
Qed.

(** ** Recording a user answer *)

Lemma ask_user_question_state v q text a s :
  session a = Some s ->
  session (fst (ask_user_question v q text a))
  = Some (update_completion (set_answers <[id q := user_answer_of q text]> s))
  ∧ answer_cache (fst (ask_user_question v q text a)) = answer_cache a
  ∧ (auto_save_interval a ≠ 0 ->
     snd (ask_user_question v q text a)
     = Ok (user_answer_of q text, validate_answer v (id q) text)).
Proof.
  intros Hs. unfold ask_user_question. unfold_M. rewrite Hs. simpl.
  destruct (auto_save_interval a) as [|n] eqn:Hn; [by repeat split|].
  match goal with |- context [if ?b then _ else _] => destruct b end.
  - match goal with |- context [_auto_save_checkpoint ?x] =>
      destruct (_auto_save_checkpoint_same_attributes x) as [(H1 & H2 & _) H3];
      destruct (_auto_save_checkpoint x) as [a' r]
    end.
    simpl in *. subst r. by repeat split.
  - by repeat split.
Qed.

(** ** Lookups in the catalog *)

Lemma dict_getitem_raises {V} (d : dict V) k e :
  dict_getitem d k = Raise e -> e = KeyError k ∧ dict_get d k = None.
Proof.
  unfold dict_get. induction d as [|[k' v] d IH]; simpl.
  - intros [= <-]. done.
  - destruct (String.eqb k' k); [done|]. intros He. destruct (IH He) as [-> _].
    by rewrite He.
Qed.

Lemma dict_get_Some {V} (d : dict V) k v :
  dict_get d k = Some v <-> dict_getitem d k = Ok v.
Proof. unfold dict_get. destruct (dict_getitem d k); split; congruence. Qed.

Lemma dict_get_None {V} (d : dict V) k :
  dict_get d k = None <-> dict_getitem d k = Raise (KeyError k).
Proof.
  unfold dict_get. destruct (dict_getitem d k) as [v|e] eqn:E; split; try congruence.
  intros _. by destruct (dict_getitem_raises d k e E) as [-> _].
Qed.

(** ** Comprehensions whose body may raise *)

Lemma count_result_ok {A} (p : A -> result bool) (l : list A) :
  Forall (fun x => exists b, p x = Ok b) l -> exists n, count_result p l = Ok n.
Proof.
  induction 1 as [|x l [b Hb] _ [n IH]]; simpl; [by eexists|].
  rewrite Hb, IH. simpl. by eexists.
Qed.

Lemma count_result_raise {A} (p : A -> result bool) (l : list A) :
  Exists (fun x => exists e, p x = Raise e) l ->
  exists x e, x ∈ l ∧ p x = Raise e ∧ count_result p l = Raise e.
Proof.
  induction l as [|x l IH]; intros Hex; [by apply Exists_nil in Hex|].
  simpl. destruct (p x) as [b|e] eqn:Hx; simpl.
  - apply Exists_cons in Hex as [[e He]|Hex]; [congruence|].
    destruct (IH Hex) as (y & e & Hy & Hpy & Hc).
    exists y, e. rewrite Hc. simpl. split; [by right|done].
  - exists x, e. split; [by left|done].
Qed.

Lemma map_result_ok {A B} (f : A -> result B) (R : A -> B -> Prop) (l : list A) :
  Forall (fun x => exists y, f x = Ok y ∧ R x y) l ->
  exists l', map_result f l = Ok l' ∧ Forall2 R l l'.
Proof.
  induction 1 as [|x l (y & Hy & HR) _ (l' & IH & HF)]; simpl.
  - exists []. by split.
  - rewrite Hy, IH. simpl. exists (y :: l'). split; [done|by constructor].
Qed.

(** ** Export *)

Lemma get_discovery_summary_ok a s :
  session a = Some s -> answers_in_catalog s ->
  exists sm, get_discovery_summary a = Ok (Some sm).
Proof.
  intros Hs Hcat. unfold get_discovery_summary. rewrite Hs.
  match goal with |- context [count_result ?p ?l] =>
    destruct (count_result_ok p l) as [n Hn] end.
  - apply Forall_forall. intros k Hk.
    apply list_elem_of_fmap in Hk as [[k' x] [-> Hkx]].
    apply elem_of_map_to_list in Hkx. simpl.
    destruct (Hcat k') as [q Hq]; [by eexists|].
    apply dict_get_Some in Hq. rewrite Hq. simpl. by eexists.
  - rewrite Hn. simpl. by eexists.
Qed.

Lemma get_discovery_summary_unknown a s :
  session a = Some s -> ¬ answers_in_catalog s ->
  exists k, is_Some (answers s !! k) ∧ dict_get DISCOVERY_QUESTIONS k = None
            ∧ get_discovery_summary a = Raise (KeyError k).
Proof.
  intros Hs Hcat. unfold get_discovery_summary. rewrite Hs.
  match goal with |- context [count_result ?p ?l] =>
    destruct (count_result_raise p l) as (k & e & Hk & Hpk & Hc) end.
  - destruct (decide (Forall (fun k => is_Some (dict_get DISCOVERY_QUESTIONS k))
                              (map_to_list (answers s)).*1)) as [Hall|Hnot].
    + destruct Hcat. intros k [x Hx]. rewrite Forall_forall in Hall.
      apply Hall, list_elem_of_fmap. exists (k, x). split; [done|].
      by apply elem_of_map_to_list.
    + apply not_Forall_Exists in Hnot; [|apply _].
      eapply Exists_impl; [exact Hnot|]. intros k Hk. simpl in Hk.
      destruct (dict_getitem DISCOVERY_QUESTIONS k) as [q|e] eqn:E.
      * destruct Hk. exists q. by apply dict_get_Some.
      * by exists e.
  - apply list_elem_of_fmap in Hk as [[k' x] [-> Hkx]].
    apply elem_of_map_to_list in Hkx. simpl in *.
    destruct (dict_getitem DISCOVERY_QUESTIONS k') as [q|e'] eqn:E; [done|].
    simpl in Hpk. injection Hpk as ->.
    destruct (dict_getitem_raises _ _ _ E) as [-> Hnone].
    exists k'. rewrite Hc. split; [by eexists|done].
Qed.

Lemma build_results_ok a s :
  session a = Some s -> answers_in_catalog s ->
  exists r exported,
    build_results a s = Ok r ∧ r_answers r = Some exported
    ∧ Forall2 exports (map_to_list (answers s)) exported.
Proof.
  intros Hs Hcat. unfold build_results.
  destruct (get_discovery_summary_ok a s Hs Hcat) as [sm ->]. simpl.
  match goal with |- context [map_result ?f ?l] =>
    destruct (map_result_ok f exports l) as (exported & -> & HF) end.
  - apply Forall_forall. intros [k x] Hkx. apply elem_of_map_to_list in Hkx.
    destruct (Hcat k) as [q Hq]; [by eexists|].
    apply dict_get_Some in Hq. rewrite Hq. simpl.
    eexists. split; [reflexivity|]. by repeat split.
  - simpl. by eexists _, exported.
Qed.

Lemma build_results_unknown a s :
  session a = Some s -> ¬ answers_in_catalog s ->
  exists k, is_Some (answers s !! k) ∧ dict_get DISCOVERY_QUESTIONS k = None
            ∧ get_discovery_summary a = Raise (KeyError k)
            ∧ build_results a s = Raise (KeyError k).
Proof.
  intros Hs Hcat.
  destruct (get_discovery_summary_unknown a s Hs Hcat) as (k & Hk & Hnone & Hsm).
  exists k. unfold build_results. rewrite Hsm. by repeat split.
Qed.

Lemma answers_in_catalog_dec s : Decision (answers_in_catalog s).
Proof.
  destruct (decide (Forall (fun k => is_Some (dict_get DISCOVERY_QUESTIONS k))
                           (map_to_list (answers s)).*1)) as [Hall|Hnot].
  - left. intros k [x Hx]. rewrite Forall_forall in Hall.
    apply Hall, list_elem_of_fmap. exists (k, x). split; [done|].
    by apply elem_of_map_to_list.
  - right. intros Hcat. apply Hnot, Forall_forall. intros k Hk.
    apply list_elem_of_fmap in Hk as [[k' x] [-> Hkx]].
    apply elem_of_map_to_list in Hkx. apply Hcat. by eexists.
Qed.

Lemma export_discovery_results_ok path a s r :
  session a = Some s -> build_results a s = Ok r -> writable a path = true ->
  export_discovery_results path a = (exported_to path r a, Ok tt).
Proof.
  intros Hs Hr Hw. unfold export_discovery_results, write_json. unfold_M.
  by rewrite Hs, Hr, Hw.
Qed.

Lemma export_discovery_results_unwritable path a s r :
  session a = Some s -> build_results a s = Ok r -> writable a path = false ->
  export_discovery_results path a = (a, Raise (OSError path)).
Proof.
  intros Hs Hr Hw. unfold export_discovery_results, write_json. unfold_M.
  by rewrite Hs, Hr, Hw.
Qed.

Lemma export_discovery_results_raise path a s e :
  session a = Some s -> build_results a s = Raise e ->
  export_discovery_results path a = (a, Raise e).
Proof.
  intros Hs Hr. unfold export_discovery_results. unfold_M. by rewrite Hs, Hr.
Qed.

(** C10.  With a session in place, either every answered id is a key of
    the catalog, and then [get_discovery_summary] returns a summary and
    [export_discovery_results] raises no [KeyError]: it succeeds when the
    output path can be opened for writing and otherwise raises the
    [OSError] of [open], writing nothing; or some answered id is not a key
    of the catalog, and then both raise [KeyError] for such an id, whatever
    the path, and the export writes nothing.  So an export that succeeds
    had every answered id in the catalog. *)
Theorem export_raises_KeyError_iff_unknown_id (a : DiscoveryAgent) (s : DiscoverySession)
    (output_path : string) :
  session a = Some s ->
  ((answers_in_catalog s
    ∧ (exists sm, get_discovery_summary a = Ok (Some sm))
    ∧ snd (export_discovery_results output_path a)
      = (if writable a output_path then Ok tt else Raise (OSError output_path))
    ∧ (writable a output_path = false -> fst (export_discovery_results output_path a) = a))
   ∨ (exists k, is_Some (answers s !! k) ∧ dict_get DISCOVERY_QUESTIONS k = None
                ∧ get_discovery_summary a = Raise (KeyError k)
                ∧ export_discovery_results output_path a = (a, Raise (KeyError k))))
  ∧ (snd (export_discovery_results output_path a) = Ok tt -> answers_in_catalog s).
Proof.
  intros Hs. destruct (answers_in_catalog_dec s) as [Hcat|Hcat].
  - split; [|done]. left. split; [done|]. split; [by eapply get_discovery_summary_ok|].
    destruct (build_results_ok a s Hs Hcat) as (r & exported & Hr & _).
    destruct (writable a output_path) eqn:Hw.
    + by rewrite (export_discovery_results_ok _ _ _ _ Hs Hr Hw).
    + by rewrite (export_discovery_results_unwritable _ _ _ _ Hs Hr Hw).
  - destruct (build_results_unknown a s Hs Hcat) as (k & Hk & Hnone & Hsm & Hr).
    pose proof (export_discovery_results_raise output_path _ _ _ Hs Hr) as Hex.
    split; [|by rewrite Hex].
    right. exists k. by repeat split.
Qed.

(** ** Import *)

Lemma load_answer_exports kx d a s :
  session a = Some s -> exports kx d ->
  load_answer d a = (set_session (Some (set_answers (fun m => insert_reimported m kx) s)) a, Ok tt).
Proof.
  intros Hs (Hid & Ha & Hsrc & Hc & Hd). unfold load_answer. unfold_M.
  rewrite Hid, Ha, Hsrc, Hc, Hd, Hs. reflexivity.
Qed.

Lemma load_answers_fold l ds : forall a s,
  session a = Some s -> Forall2 exports l ds ->
  exists s', session (fst (for_each ds load_answer a)) = Some s'
             ∧ answers s' = fold_left insert_reimported l (answers s)
             ∧ snd (for_each ds load_answer a) = Ok tt
             ∧ working_directory (fst (for_each ds load_answer a)) = working_directory a
             ∧ logger (fst (for_each ds load_answer a)) = logger a
             ∧ answer_cache (fst (for_each ds load_answer a)) = answer_cache a.
Proof.
  intros a s Hs HF. revert a s Hs.
  induction HF as [|kx d l ds Hex _ IH]; intros a s Hs; simpl.
  - exists s. by repeat split.
  - unfold bind. rewrite (load_answer_exports kx d a s Hs Hex).
    match goal with |- context [for_each ds load_answer ?a1] =>
      destruct (IH a1 (set_answers (fun m => insert_reimported m kx) s) eq_refl)
        as (s' & H1 & H2 & H3 & H4 & H5 & H6) end.
    exists s'. by repeat split.
Qed.

Lemma fold_insert_reimported_lookup (l : list (string * DiscoveryAnswer)) k :
  NoDup l.*1 -> forall m,
  fold_left insert_reimported l m !! k
  = match list_find (fun kx => kx.1 = k) l with
    | Some (_, kx) => Some (reimported k kx.2)
    | None => m !! k
    end.
Proof.
  induction l as [|[k' x] l IH]; intros Hnd m; simpl; [done|].
  apply NoDup_cons in Hnd as [Hk' Hnd]. rewrite (IH Hnd).
  destruct (decide (k' = k)) as [->|Hne]; simpl.
  - destruct (list_find _ l) as [[i [k'' y]]|] eqn:Hfind; simpl.
    + apply list_find_Some in Hfind as (Hi & Hk & _). simpl in Hk. subst k''.
      destruct Hk'. apply list_elem_of_fmap. exists (k, y). split; [done|].
      by eapply list_elem_of_lookup_2.
    + unfold insert_reimported. simpl. by rewrite lookup_insert_eq.
  - destruct (list_find _ l) as [[i [k'' y]]|] eqn:Hfind; simpl; [done|].
    unfold insert_reimported. simpl. by rewrite lookup_insert_ne.
Qed.

Lemma fold_insert_reimported_map (m : gmap string DiscoveryAnswer) k :
  fold_left insert_reimported (map_to_list m) ∅ !! k = reimported k <$> m !! k.
Proof.
  rewrite fold_insert_reimported_lookup by apply NoDup_fst_map_to_list.
  destruct (list_find _ (map_to_list m)) as [[i [k' y]]|] eqn:Hfind; simpl.
  - apply list_find_Some in Hfind as (Hi & Hk & _). simpl in Hk. subst k'.
    apply list_elem_of_lookup_2, elem_of_map_to_list in Hi. by rewrite Hi.
  - rewrite lookup_empty. destruct (m !! k) as [x|] eqn:Hx; [|done].
    apply elem_of_map_to_list in Hx.
    eapply list_find_None, Forall_forall in Hfind; [|exact Hx]. by destruct Hfind.
Qed.

(** What [import_discovery_results] does with a file whose entries are all
    well formed. *)
Lemma import_discovery_results_entries path a f r l ds :
  working_directory a !! path = Some f -> content f = Json r ->
  r_answers r = Some ds -> Forall2 exports l ds ->
  exists s', session (fst (import_discovery_results path a)) = Some s'
             ∧ answers s' = fold_left insert_reimported l ∅
             ∧ completion_percentage s'
               = percentage_of (size (answers s')) get_total_count
             ∧ snd (import_discovery_results path a) = Ok true
             ∧ answer_cache (fst (import_discovery_results path a)) = answer_cache a
             ∧ logger (fst (import_discovery_results path a))
               = logger a ++ [(LOG_INFO, "Imported " +:+ pretty (size (answers s'))
                                          +:+ " answers from " +:+ path)].
Proof.
  intros Hf Hc Hr HF. unfold import_discovery_results, read_json. unfold_M.
  rewrite Hf, Hc, Hr. simpl default.
  match goal with |- context [for_each ds load_answer ?a1] =>
    destruct (load_answers_fold l ds a1 _ eq_refl HF) as (s' & H1 & H2 & H3 & H4 & H5 & H6);
    destruct (for_each ds load_answer a1) as [a2 r2]
  end.
  simpl in H1, H2, H3, H4, H5, H6. subst r2. rewrite H1. simpl.
  exists (update_completion s'). rewrite H5, H6. by repeat split.
Qed.

(** C6.  For a session whose answers all carry catalog ids, exporting to a
    path that can be opened for writing and then importing the file that
    was written yields a session with the same answered ids and, for each
    id, the same answer text, source, confidence and document reference.
    The import may be run by any agent that finds the exported file at the
    path, whatever session and cache it has before: what it held is
    replaced by what the file holds. *)
Theorem export_import_round_trip (a b : DiscoveryAgent) (s : DiscoverySession)
    (path : string) :
  session a = Some s -> answers_in_catalog s -> writable a path = true ->
  working_directory b !! path
  = working_directory (fst (export_discovery_results path a)) !! path ->
  exists s2,
    snd (export_discovery_results path a) = Ok tt
    ∧ snd (import_discovery_results path b) = Ok true
    ∧ session (fst (import_discovery_results path b)) = Some s2
    ∧ dom (answers s2) = dom (answers s)
    ∧ forall k x, answers s !! k = Some x ->
        exists y, answers s2 !! k = Some y
                  ∧ answer y = answer x ∧ source y = source x
                  ∧ confidence y = confidence x
                  ∧ document_reference y = document_reference x.
Proof.
  intros Hs Hcat Hw Hfile.
  destruct (build_results_ok a s Hs Hcat) as (r & exported & Hr & Hans & HF).
  rewrite (export_discovery_results_ok path a s r Hs Hr Hw) in Hfile |- *.
  simpl in Hfile. rewrite lookup_insert_eq in Hfile.
  destruct (import_discovery_results_entries path b
              {| ctime := epoch (clock a); content := Json r |} r
              (map_to_list (answers s)) exported)
    as (s2 & Hs2 & Hanswers & _ & Hok & _); [done..|].
  assert (Hlookup : forall k, answers s2 !! k = reimported k <$> answers s !! k).
  { intros k. rewrite Hanswers. apply fold_insert_reimported_map. }
  exists s2. split; [done|]. split; [done|]. split; [done|]. split.
  - apply set_eq. intros k. rewrite !elem_of_dom, Hlookup.
    by rewrite fmap_is_Some.
  - intros k x Hx. exists (reimported k x). rewrite Hlookup, Hx. by repeat split.
Qed.

(** ** The interactive flow *)

Ltac unfold_cli :=
  cbv beta iota zeta delta
    [bind ret raise get modify lift_result try_except log the_session
     update_session on_agent Confirm_ask Prompt_ask fst snd] in *.

(** Accepting the pending candidate: it moves from the cache into the
    session, and nothing else of the session changes. *)
Lemma _ask_single_question_accept v q c s cached rest :
  session (agent c) = Some s ->
  answer_cache (agent c) !! id q = Some cached ->
  confirm_replies c = true :: rest ->
  snd (_ask_single_question v q c) = Ok tt
  ∧ session (agent (fst (_ask_single_question v q c)))
    = Some (set_answers <[id q := cached]> s)
  ∧ answer_cache (agent (fst (_ask_single_question v q c)))
    = delete (id q) (answer_cache (agent c))
  ∧ last_question (fst (_ask_single_question v q c)) = Some q.
Proof.
  intros Hs Hc Hr. unfold _ask_single_question. simpl _ask_single_question_rec.
  unfold offer_cached_answer. unfold_cli. rewrite Hc, Hr. simpl. rewrite Hs. simpl.
  by repeat split.
Qed.

(** Declining it and typing an answer: the session gets the user's answer
    and the cache keeps the candidate. *)
Lemma _ask_single_question_decline v q c s cached rest text more :
  session (agent c) = Some s ->
  answer_cache (agent c) !! id q = Some cached ->
  confirm_replies c = false :: rest ->
  prompt_replies c = text :: more ->
  startswith text "?" = false -> lower text ≠ "e" -> lower text ≠ "skip" ->
  truthy (strip text) = true ->
  session (agent (fst (_ask_single_question v q c)))
  = Some (update_completion (set_answers <[id q := user_answer_of q (strip text)]> s))
  ∧ answer_cache (agent (fst (_ask_single_question v q c))) = answer_cache (agent c).
Proof.
  intros Hs Hc Hr Hp Hq He Hskip Hstrip.
  unfold _ask_single_question. simpl _ask_single_question_rec.
  unfold offer_cached_answer, read_answer. unfold_cli.
  rewrite Hc, Hr. simpl. rewrite Hp. simpl. rewrite Hq. simpl.
  apply String.eqb_neq in He, Hskip. rewrite He, Hskip, Hstrip. simpl.
  assert (Ht : truthy text = true).
  { destruct text; [done|done]. }
  rewrite Ht. simpl.
  destruct (ask_user_question_state v q (strip text) (agent c) s Hs) as (H1 & H2 & _).
  destruct (ask_user_question v q (strip text) (agent c)) as [a' [r|e]]; simpl in *; done.
Qed.

(** ** The bound on the recursion of [_ask_single_question] *)

Lemma on_agent_prompt_replies {A} (m : M DiscoveryAgent A) c :
  prompt_replies (fst (on_agent m c)) = prompt_replies c.
Proof. unfold on_agent. by destruct (m (agent c)). Qed.

Lemma _edit_last_answer_prompt_replies v c :
  length (prompt_replies (fst (_edit_last_answer v c))) <= length (prompt_replies c).
Proof.
  unfold _edit_last_answer. unfold_cli.
  destruct (last_question c) as [last|]; [|done].
  destruct (session (agent c)) as [s|]; simpl; [|lia].
  destruct (answers s !! id last) as [last_answer|]; simpl; [|lia].
  destruct (prompt_replies c) as [|text rest] eqn:Hp; simpl; [by rewrite Hp|].
  case_bool_decide; simpl; [|lia].
  destruct (ask_user_question v last text (agent c)) as [a' [r|e]]; simpl; lia.
Qed.

Lemma offer_cached_answer_prompt_replies q c :
  prompt_replies (fst (offer_cached_answer q c)) = prompt_replies c.
Proof.
  unfold offer_cached_answer. unfold_cli.
  destruct (answer_cache (agent c) !! id q) as [cached|]; [|done].
  destruct (confirm_replies c) as [|[] rest]; simpl; [done| |done].
  destruct (session (agent c)); done.
Qed.

(** [read_answer] calls [ask_again] only after it has consumed a reply. *)
Lemma read_answer_ext v (again1 again2 : M DiscoveryWorkshopCLI unit) q c :
  (forall c', length (prompt_replies c') < length (prompt_replies c) ->
              again1 c' = again2 c') ->
  read_answer v again1 q c = read_answer v again2 q c.
Proof.
  intros Hagain. unfold read_answer. unfold_cli.
  destruct (prompt_replies c) as [|text rest] eqn:Hp; [done|]. simpl.
  destruct (startswith text "?"); [destruct (process_command text) as [[]|e]|];
    simpl; try done; try (apply Hagain; simpl; lia).
  all: destruct (_ && _); [|done].
  all: match goal with |- context [_edit_last_answer ?v0 ?c1] =>
         pose proof (_edit_last_answer_prompt_replies v0 c1) as Hle;
         destruct (_edit_last_answer v0 c1) as [c2 [[]|e]]
       end; simpl in *; [|done].
  all: apply Hagain; lia.
Qed.

(** Any bound above the number of replies still to come gives the same
    run: the bound is never what ends it. *)
Lemma _ask_single_question_rec_fuel v q : forall fuel1 fuel2 c,
  length (prompt_replies c) < fuel1 -> length (prompt_replies c) < fuel2 ->
  _ask_single_question_rec v fuel1 q c = _ask_single_question_rec v fuel2 q c.
Proof.
  induction fuel1 as [|fuel1 IH]; intros [|fuel2] c H1 H2; try lia.
  simpl. unfold bind.
  pose proof (offer_cached_answer_prompt_replies q c) as Hsame.
  destruct (offer_cached_answer q c) as [c1 [[]|e]]; simpl in *; try done.
  apply read_answer_ext. intros c' Hc'. rewrite Hsame in Hc'. apply IH; lia.
Qed.

Lemma _ask_single_question_fuel v q fuel c :
  length (prompt_replies c) < fuel ->
  _ask_single_question_rec v fuel q c = _ask_single_question v q c.
Proof. intros Hfuel. apply _ask_single_question_rec_fuel; [done|lia]. Qed.

(** ** The search-index pass *)

Lemma analyze_question_candidate q locals a s first hits data text :
  session a = Some s -> answers s !! id q = None ->
  search_client a (search_query q) = Ok (first :: hits) ->
  kernel_answer a q (first :: hits) = Ok data ->
  reply_answer data = Some text -> truthy text = true ->
  let ans := search_candidate q first data text in
  snd (analyze_question q locals a)
  = Ok (if Qle_bool (confidence_threshold a) (confidence ans)
        then (S (fst locals), set_add (document_reference ans) (snd locals))
        else locals)
  ∧ session (fst (analyze_question q locals a))
    = Some (if Qle_bool (confidence_threshold a) (confidence ans)
            then set_answers <[id q := ans]> s else s)
  ∧ answer_cache (fst (analyze_question q locals a))
    = if Qle_bool (confidence_threshold a) (confidence ans)
      then answer_cache a else <[id q := ans]> (answer_cache a).
Proof.
  intros Hs Hnone Hsearch Hchat Hreply Htruthy ans.
  unfold analyze_question, search_query in *. unfold_M. rewrite Hs, Hnone.
  rewrite bool_decide_false by (by intros [? ?]).
  rewrite Hsearch. unfold _extract_answer_from_search_results. unfold_M.
  rewrite Hchat, Hreply, Htruthy. fold (search_candidate q first data text). fold ans.
  destruct (Qle_bool (confidence_threshold a) (confidence ans)); unfold_M;
    rewrite ?Hs; by repeat split.
Qed.

Lemma analyze_question_keeps_answers s q locals a :
  keeps_answers s a ->
  keeps_answers s (fst (analyze_question q locals a))
  ∧ exists locals', snd (analyze_question q locals a) = Ok locals'.
Proof.
  intros (s1 & Hs1 & Hsub).
  destruct (analyze_question_outcome q locals a s1 Hs1) as (Hout & Hok & _).
  split; [|done]. destruct Hout as [Hsame _|s2 ans Hs2 Hnone _ Hs' _|s2 ans _ _ _ Hsame _].
  - exists s1. by rewrite Hsame.
  - rewrite Hs1 in Hs2. injection Hs2 as <-.
    eexists. split; [exact Hs'|]. simpl.
    etrans; [exact Hsub|]. by apply insert_subseteq.
  - exists s1. by rewrite Hsame.
Qed.

Lemma analyze_loops_keep_answers s a :
  keeps_answers s a ->
  keeps_answers s (fst (analyze_loops a)) ∧ exists locals, snd (analyze_loops a) = Ok locals.
Proof.
  intros Ha. unfold analyze_loops.
  apply (for_fold_returns (keeps_answers s)); [|done].
  intros c locals a1 Ha1.
  apply (for_fold_returns (keeps_answers s)); [|done].
  intros q locals1 a2 Ha2. by apply analyze_question_keeps_answers.
Qed.

Lemma _analyze_with_search_index_session a s :
  session a = Some s ->
  exists s' n docs,
    session (fst (_analyze_with_search_index a))
    = Some (update_completion (set_documents_analyzed (fun _ => docs) s'))
    ∧ snd (_analyze_with_search_index a) = Ok (n, docs)
    ∧ answers s ⊆ answers s'.
Proof.
  intros Hs. unfold _analyze_with_search_index. unfold_M.
  match goal with |- context [analyze_loops ?a0] =>
    destruct (analyze_loops_keep_answers s a0) as [(s' & Hs' & Hsub) [[n docs] Hok]];
      [by exists s|];
    destruct (analyze_loops a0) as [a1 r1]
  end.
  simpl in Hs', Hok. subst r1. rewrite Hs'. simpl.
  exists s', n, docs. by repeat split.
Qed.

(** ** The blob-storage pass *)

(** One iteration of the blob-storage pass ends in its [except] clause:
    the call of [process] raises, so the extraction is not reached and the
    session stays as it was. *)
Lemma analyze_artifact_session artifact n a :
  session (fst (analyze_artifact artifact n a)) = session a
  ∧ answer_cache (fst (analyze_artifact artifact n a)) = answer_cache a
  ∧ snd (analyze_artifact artifact n a) = Ok n.
Proof.
  unfold analyze_artifact, document_processor_process. unfold_M. simpl.
  destruct (storage_download_artifact a artifact); by repeat split.
Qed.

Lemma analyze_artifacts_session artifacts : forall n a,
  session (fst (for_fold artifacts n analyze_artifact a)) = session a
  ∧ answer_cache (fst (for_fold artifacts n analyze_artifact a)) = answer_cache a
  ∧ snd (for_fold artifacts n analyze_artifact a) = Ok n.
Proof.
  induction artifacts as [|artifact artifacts IH]; intros n a; simpl; [done|].
  unfold bind. destruct (analyze_artifact_session artifact n a) as (H1 & H2 & H3).
  destruct (analyze_artifact artifact n a) as [a1 r1]. simpl in *. subst r1.
  destruct (IH n a1) as (H4 & H5 & H6). rewrite H4, H5, H6. by repeat split.
Qed.

Lemma _analyze_from_blob_storage_answers a s :
  session a = Some s ->
  exists s', session (fst (_analyze_from_blob_storage a)) = Some s'
             ∧ answers s' = answers s
             ∧ answer_cache (fst (_analyze_from_blob_storage a)) = answer_cache a.
Proof.
  intros Hs. unfold _analyze_from_blob_storage. unfold_M.
  destruct (storage_list_artifacts _) as [[|artifact artifacts]|e]; unfold_M;
    [by exists s|..|by exists s].
  match goal with |- context [for_fold ?l ?n analyze_artifact ?a1] =>
    destruct (analyze_artifacts_session l n a1) as (H1 & H2 & H3);
    destruct (for_fold l n analyze_artifact a1) as [a2 r2]
  end.
  simpl in *. subst r2. rewrite H1, Hs. simpl. eexists. by repeat split.
Qed.

(** [analyze_documents], whichever pass it takes, keeps every answer the
    session already has. *)
Lemma analyze_documents_keeps_answers a s :
  session a = Some s ->
  exists s', session (fst (analyze_documents a)) = Some s'
             ∧ forall k x, answers s !! k = Some x -> answers s' !! k = Some x.
Proof.
  intros Hs. unfold analyze_documents. unfold_M. rewrite Hs.
  destruct (use_search_index a).
  - destruct (_analyze_with_search_index_session a s Hs) as (s' & n & docs & Hs' & Hok & Hsub).
    destruct (_analyze_with_search_index a) as [a1 r1]. simpl in *. subst r1.
    eexists. split; [exact Hs'|]. simpl. intros k x Hx. by eapply lookup_weaken.
  - destruct (_analyze_from_blob_storage_answers a s Hs) as (s' & Hs' & Heq & _).
    exists s'. split; [done|]. by rewrite Heq.
Qed.

(** ** Recording a user answer: what holds and what does not *)

(** What [ask_user_question] does to the session: with a session in
    place it leaves under the question's id an answer with the user's text,
    source [user_input] and confidence 1, whatever was stored under that id
    before, and leaves every other answer as it was. *)
Theorem ask_user_question_records_user_input (v : string -> list ValidationResult)
    (q : DiscoveryQuestion) (text : string) (a : DiscoveryAgent) (s : DiscoverySession) :
  session a = Some s ->
  exists s' ans,
    session (fst (ask_user_question v q text a)) = Some s'
    ∧ answers s' !! id q = Some ans
    ∧ answer ans = text ∧ source ans = "user_input" ∧ confidence ans = 1%Q
    ∧ forall k, k ≠ id q -> answers s' !! k = answers s !! k.
Proof.
  intros Hs. destruct (ask_user_question_state v q text a s Hs) as (Hs' & _ & _).
  eexists _, (user_answer_of q text). split; [exact Hs'|]. simpl.
  split; [apply lookup_insert_eq|]. do 3 (split; [reflexivity|]).
  intros k Hk. by apply lookup_insert_ne.
Qed.

Lemma ask_user_question_records_user_input_witness :
  exists s' ans,
    session (fst (ask_user_question no_ip_findings (catalog_question "net_002")
                    "HQ and DR site" agent_with_pending)) = Some s'
    ∧ answers s' !! id (catalog_question "net_002") = Some ans
    ∧ answer ans = "HQ and DR site" ∧ source ans = "user_input" ∧ confidence ans = 1%Q
    ∧ forall k, k ≠ id (catalog_question "net_002") ->
                answers s' !! k = answers (new_DiscoverySession "workshop_20240101_120000" noon) !! k.
Proof.
  apply (ask_user_question_records_user_input no_ip_findings (catalog_question "net_002")
           "HQ and DR site" agent_with_pending
           (new_DiscoverySession "workshop_20240101_120000" noon)).
  reflexivity.
Defined.

(** C1.  The code breaks the last part of the claim: [net_002] has a
    candidate pending review; after the user's own answer is recorded the
    session holds the user's answer, with source [user_input], and the
    cache still holds the candidate, which accepting it would have
    removed. *)
Lemma ask_user_question_keeps_pending_candidate :
  let a' := fst (ask_user_question no_ip_findings (catalog_question "net_002")
                   "HQ and DR site" agent_with_pending) in
  source <$> answer_of a' "net_002" = Some "user_input"
  ∧ answer_cache a' !! "net_002" = Some pending_net_002.
Proof. vm_compute. split; reflexivity. Qed.

(** C3.  The code breaks the exclusion of session and cache: with a
    session in place and a candidate pending for the question,
    [ask_user_question] leaves the question's id a key of both
    [session.answers] and [answer_cache]. *)
Theorem user_answer_leaves_id_in_answers_and_cache (v : string -> list ValidationResult)
    (q : DiscoveryQuestion) (text : string) (a : DiscoveryAgent) (s : DiscoverySession)
    (cached : DiscoveryAnswer) :
  session a = Some s -> answer_cache a !! id q = Some cached ->
  exists s',
    session (fst (ask_user_question v q text a)) = Some s'
    ∧ is_Some (answers s' !! id q)
    ∧ answer_cache (fst (ask_user_question v q text a)) !! id q = Some cached.
Proof.
  intros Hs Hc. destruct (ask_user_question_state v q text a s Hs) as (Hs' & Hcache & _).
  eexists. split; [exact Hs'|]. simpl. split.
  - rewrite lookup_insert_eq. by eexists.
  - by rewrite Hcache.
Qed.

Lemma user_answer_leaves_id_in_answers_and_cache_witness :
  exists s',
    session (fst (ask_user_question no_ip_findings (catalog_question "net_002")
                    "HQ and DR site" agent_with_pending)) = Some s'
    ∧ is_Some (answers s' !! id (catalog_question "net_002"))
    ∧ answer_cache (fst (ask_user_question no_ip_findings (catalog_question "net_002")
                           "HQ and DR site" agent_with_pending))
        !! id (catalog_question "net_002") = Some pending_net_002.
Proof.
  apply (user_answer_leaves_id_in_answers_and_cache no_ip_findings
           (catalog_question "net_002") "HQ and DR site" agent_with_pending
           (new_DiscoverySession "workshop_20240101_120000" noon) pending_net_002).
  - reflexivity.
  - vm_compute. reflexivity.
Defined.

(** The same through the console: the user declines the candidate shown
    for [net_002] and types an answer. *)
Example decline_then_answer_leaves_id_in_both :
  let c' := fst (_ask_single_question no_ip_findings (catalog_question "net_002")
                   (cli_with agent_with_pending [false] ["HQ and DR site"])) in
  source <$> answer_of (agent c') "net_002" = Some "user_input"
  ∧ answer_cache (agent c') !! "net_002" = Some pending_net_002.
Proof. vm_compute. split; reflexivity. Qed.

(** Accepting a candidate removes it from the cache, and declining one
    without answering changes neither mapping: these two steps keep the
    session and the cache apart. *)
Lemma accept_keeps_answers_and_cache_apart v q c s cached rest :
  session (agent c) = Some s ->
  answer_cache (agent c) !! id q = Some cached ->
  confirm_replies c = true :: rest ->
  dom (answers s) ## dom (answer_cache (agent c)) ->
  exists s', session (agent (fst (_ask_single_question v q c))) = Some s'
             ∧ dom (answers s') ## dom (answer_cache (agent (fst (_ask_single_question v q c)))).
Proof.
  intros Hs Hc Hr Hdisj.
  destruct (_ask_single_question_accept v q c s cached rest Hs Hc Hr) as (_ & Hs' & Hc' & _).
  eexists. split; [exact Hs'|]. rewrite Hc'. simpl.
  rewrite dom_insert_L, dom_delete_L. intros k Hk Hk'.
  apply elem_of_difference in Hk' as [Hk' Hne].
  apply elem_of_union in Hk as [Hk|Hk]; [done|]. by apply (Hdisj k).
Qed.

(** ** The completion percentage after each write *)

(** C2.  The code breaks the invariant: when the user accepts the
    candidate shown for an unanswered question, the session gains an
    answer and keeps its old completion percentage, so a session that
    satisfied the formula no longer does. *)
Theorem accept_cached_leaves_completion_stale (v : string -> list ValidationResult)
    (q : DiscoveryQuestion) (c : DiscoveryWorkshopCLI) (s : DiscoverySession)
    (cached : DiscoveryAnswer) (rest : list bool) :
  session (agent c) = Some s ->
  answers s !! id q = None ->
  answer_cache (agent c) !! id q = Some cached ->
  confirm_replies c = true :: rest ->
  completion_consistent s ->
  exists s',
    session (agent (fst (_ask_single_question v q c))) = Some s'
    ∧ size (answers s') = S (size (answers s))
    ∧ completion_percentage s' = completion_percentage s
    ∧ ¬ completion_consistent s'.
Proof.
  intros Hs Hnone Hc Hr Hcompl.
  destruct (_ask_single_question_accept v q c s cached rest Hs Hc Hr) as (_ & Hs' & _).
  eexists. split; [exact Hs'|]. simpl.
  assert (Hsize : size (<[id q := cached]> (answers s)) = S (size (answers s)))
    by (by apply map_size_insert_None).
  split; [done|]. split; [done|].
  unfold completion_consistent in *. simpl. rewrite Hsize, Hcompl.
  rewrite <- !percentage_of_formula.
  intros Heq. apply percentage_of_injective in Heq. lia.
Qed.

Lemma accept_cached_leaves_completion_stale_witness :
  exists s',
    session (agent (fst (_ask_single_question no_ip_findings (catalog_question "net_002")
                           (cli_with agent_with_pending [true] [])))) = Some s'
    ∧ size (answers s') = 1
    ∧ completion_percentage s' = 0%Q
    ∧ ¬ completion_consistent s'.
Proof.
  apply (accept_cached_leaves_completion_stale no_ip_findings (catalog_question "net_002")
           (cli_with agent_with_pending [true] [])
           (new_DiscoverySession "workshop_20240101_120000" noon) pending_net_002 []).
  - reflexivity.
  - vm_compute. reflexivity.
  - vm_compute. reflexivity.
  - reflexivity.
  - vm_compute. reflexivity.
Defined.

(** Deleting an answer during the review has the same effect. *)
Example delete_in_review_leaves_completion_stale :
  let a := fst (ask_user_question no_ip_findings (catalog_question "net_002")
                  "HQ and DR site" started_agent) in
  let c' := fst (review_and_edit_answers no_ip_findings (cli_with a [true; true] ["d"])) in
  (size <$> (answers <$> session (agent c')),
   completion_percentage <$> session (agent c'))
  = (Some 0, Some (percentage_of 1 get_total_count)).
Proof. vm_compute. reflexivity. Qed.

(** The paths that do recompute: a user answer, an import and the
    search-index pass leave the completion percentage at the formula. *)
Lemma ask_user_question_completion v q text a s :
  session a = Some s ->
  exists s', session (fst (ask_user_question v q text a)) = Some s'
             ∧ completion_consistent s'.
Proof.
  intros Hs. destruct (ask_user_question_state v q text a s Hs) as (Hs' & _).
  eexists. split; [exact Hs'|]. apply update_completion_consistent.
Qed.

Lemma _analyze_with_search_index_completion a s :
  session a = Some s ->
  exists s' n docs,
    session (fst (_analyze_with_search_index a)) = Some s'
    ∧ snd (_analyze_with_search_index a) = Ok (n, docs)
    ∧ completion_consistent s'.
Proof.
  intros Hs.
  destruct (_analyze_with_search_index_session a s Hs) as (s' & n & docs & Hs' & Hok & _).
  eexists _, n, docs. split; [exact Hs'|]. split; [done|].
  apply update_completion_consistent.
Qed.

(** ** Automated candidates *)

(** C5.  In the search-index pass, a candidate found for a question that
    has no answer yet is stored in [session.answers] when its confidence
    reaches [confidence_threshold] and otherwise in [answer_cache] under
    the question's id, where it replaces whatever was pending for that id;
    the pass ends with the completion percentage at the formula; and the
    threshold of a new agent is 0.85. *)
Theorem search_candidate_accepted_or_cached (a : DiscoveryAgent) (s : DiscoverySession)
    (q : DiscoveryQuestion) (first : search_hit) (hits : list search_hit)
    (data : chat_reply) (text : string) (locals : nat * list (option string)) :
  session a = Some s -> answers s !! id q = None ->
  search_client a (search_query q) = Ok (first :: hits) ->
  kernel_answer a q (first :: hits) = Ok data ->
  reply_answer data = Some text -> truthy text = true ->
  let ans := search_candidate q first data text in
  let a' := fst (analyze_question q locals a) in
  ((confidence_threshold a <= confidence ans)%Q ->
     session a' = Some (set_answers <[id q := ans]> s)
     ∧ answer_cache a' = answer_cache a)
  ∧ ((confidence ans < confidence_threshold a)%Q ->
     session a' = Some s
     ∧ answer_cache a' = <[id q := ans]> (answer_cache a)
     ∧ answer_cache a' !! id q = Some ans)
  ∧ (exists s1 n docs,
       session (fst (_analyze_with_search_index a)) = Some s1
       ∧ snd (_analyze_with_search_index a) = Ok (n, docs)
       ∧ completion_consistent s1)
  ∧ (forall search chat_answer chat_document list_artifacts download_artifact now cwd
            can_write,
       confidence_threshold
         (new_DiscoveryAgent search chat_answer chat_document list_artifacts download_artifact
            now cwd can_write)
       = (85 # 100)%Q).
Proof.
  intros Hs Hnone Hsearch Hchat Hreply Htruthy ans a'.
  destruct (analyze_question_candidate q locals a s first hits data text
              Hs Hnone Hsearch Hchat Hreply Htruthy) as (_ & Hs' & Hc').
  fold ans in Hs', Hc'. fold a' in Hs', Hc'.
  split; [|split; [|split]].
  - intros Hle. apply Qle_bool_iff in Hle. by rewrite Hle in Hs', Hc'.
  - intros Hlt. apply Qlt_not_le in Hlt.
    destruct (Qle_bool (confidence_threshold a) (confidence ans)) eqn:Hb.
    { destruct Hlt. by apply Qle_bool_iff. }
    split; [done|]. split; [done|]. rewrite Hc'. apply lookup_insert_eq.
  - by apply (_analyze_with_search_index_completion a s).
  - reflexivity.
Qed.

Lemma search_candidate_accepted_or_cached_witness :
  let q := catalog_question "biz_001" in
  let ans := {| question_id := "biz_001";
                answer := "Datacenter exit";
                source := "search_index";
                confidence := (9 # 10)%Q;
                document_reference := Some "business-case.docx";
                notes := None |} in
  session (fst (analyze_question q (0, []) searching_agent))
  = Some (set_answers <["biz_001" := ans]> (new_DiscoverySession "workshop_20240101_120000" noon))
  ∧ answer_cache (fst (analyze_question q (0, []) searching_agent)) = ∅.
Proof.
  refine (proj1 (search_candidate_accepted_or_cached searching_agent
           (new_DiscoverySession "workshop_20240101_120000" noon)
           (catalog_question "biz_001")
           {| hit_blob_name := Some "business-case.docx";
              hit_content := "The programme exits both datacenters by 2026." |} []
           {| reply_answer := Some "Datacenter exit";
              reply_confidence := Some (9 # 10)%Q;
              reply_source_document := Some (Some "business-case.docx") |}
           "Datacenter exit" (0, []) _ _ _ _ _ _) _).
  - reflexivity.
  - vm_compute. reflexivity.
  - reflexivity.
  - reflexivity.
  - reflexivity.
  - reflexivity.
  - vm_compute. discriminate.
Defined.

Example search_candidate_below_threshold_is_cached :
  let a' := fst (analyze_question (catalog_question "net_002") (0, []) hesitant_agent) in
  (answer_of a' "net_002", answer <$> answer_cache a' !! "net_002")
  = (None, Some "Probably two datacenters").
Proof. vm_compute. reflexivity. Qed.

(** C4.  An automated candidate never replaces an answer the session
    already has.  The search-index pass skips every question whose id is a
    key of [session.answers] before it searches, so it keeps every answer
    it finds there.  The document pass stores nothing at all: the call of
    [process] raises before the extraction is reached, and the extraction
    itself raises on every [ProcessedContent], which has no attribute
    [text_content], before it asks the chat model.  Hence
    [analyze_documents], in either mode, keeps every answer of the session,
    and when it is invoked twice the second invocation keeps every answer
    the first one accepted, whatever the confidences. *)
Theorem automated_candidate_keeps_answers (a : DiscoveryAgent) (s : DiscoverySession) :
  session a = Some s ->
  (exists s', session (fst (_analyze_with_search_index a)) = Some s'
              ∧ forall k x, answers s !! k = Some x -> answers s' !! k = Some x)
  ∧ (forall q locals, is_Some (answers s !! id q) ->
       analyze_question q locals a = (a, Ok locals))
  ∧ (exists s', session (fst (_analyze_from_blob_storage a)) = Some s'
                ∧ answers s' = answers s)
  ∧ (forall document_name (content : ProcessedContent),
       _extract_answers_from_document document_name
         (ProcessedContent_text_content content) a
       = (a, Raise (AttributeError "object has no attribute 'text_content'")))
  ∧ (exists s1 s2,
       session (fst (analyze_documents a)) = Some s1
       ∧ session (fst (analyze_documents (fst (analyze_documents a)))) = Some s2
       ∧ (forall k x, answers s !! k = Some x -> answers s1 !! k = Some x)
       ∧ (forall k x, answers s1 !! k = Some x -> answers s2 !! k = Some x)).
Proof.
  intros Hs. split; [|split; [|split; [|split]]].
  - destruct (_analyze_with_search_index_session a s Hs) as (s' & n & docs & Hs' & _ & Hsub).
    eexists. split; [exact Hs'|]. simpl. intros k x Hx. by eapply lookup_weaken.
  - intros q locals Hin. unfold analyze_question. unfold_M. rewrite Hs.
    by rewrite bool_decide_true.
  - destruct (_analyze_from_blob_storage_answers a s Hs) as (s' & Hs' & Heq & _).
    by exists s'.
  - reflexivity.
  - destruct (analyze_documents_keeps_answers a s Hs) as (s1 & Hs1 & H1).
    destruct (analyze_documents_keeps_answers _ s1 Hs1) as (s2 & Hs2 & H2).
    by exists s1, s2.
Qed.

Lemma automated_candidate_keeps_answers_witness :
  let a := set_session (Some answered_session) searching_agent in
  (exists s', session (fst (_analyze_with_search_index a)) = Some s'
              ∧ forall k x, answers answered_session !! k = Some x -> answers s' !! k = Some x)
  ∧ (forall q locals, is_Some (answers answered_session !! id q) ->
       analyze_question q locals a = (a, Ok locals))
  ∧ (exists s', session (fst (_analyze_from_blob_storage a)) = Some s'
                ∧ answers s' = answers answered_session)
  ∧ (forall document_name (content : ProcessedContent),
       _extract_answers_from_document document_name
         (ProcessedContent_text_content content) a
       = (a, Raise (AttributeError "object has no attribute 'text_content'")))
  ∧ (exists s1 s2,
       session (fst (analyze_documents a)) = Some s1
       ∧ session (fst (analyze_documents (fst (analyze_documents a)))) = Some s2
       ∧ (forall k x, answers answered_session !! k = Some x -> answers s1 !! k = Some x)
       ∧ (forall k x, answers s1 !! k = Some x -> answers s2 !! k = Some x)).
Proof.
  apply (automated_candidate_keeps_answers
           (set_session (Some answered_session) searching_agent) answered_session).
  reflexivity.
Defined.

(** The search service has a confident candidate for every question; the
    pass accepts it everywhere except for [net_002], which keeps the
    user's answer. *)
Example search_index_pass_skips_answered_question :
  let a' := fst (_analyze_with_search_index
                   (set_session (Some answered_session) searching_agent)) in
  (source <$> answer_of a' "net_002", source <$> answer_of a' "net_001")
  = (Some "user_input", Some "search_index").
Proof. vm_compute. reflexivity. Qed.

(** Without a search index the documents of blob storage are gone through
    one by one; the chat model would read an answer to [net_002] out of
    each, but no document gets as far as the extraction, and the session
    keeps the user's answer. *)
Example document_pass_stores_nothing :
  let r := analyze_documents reading_agent in
  (snd r, answer <$> answer_of (fst r) "net_002", fst <$> logger (fst r))
  = (Ok (0, []), Some "HQ and DR site",
     [LOG_INFO; LOG_INFO; LOG_INFO; LOG_ERROR; LOG_INFO; LOG_ERROR]).
Proof. vm_compute. reflexivity. Qed.

(** ** Validation is advisory *)

(** C8.  For an id that has no entry in [VALIDATORS], [validate_answer]
    returns the empty list for every answer; and whatever the findings
    for a question and an answer are, [ask_user_question] stores the answer
    in the session and returns it together with the findings. *)
Theorem validation_is_advisory (v : string -> list ValidationResult) :
  (forall (qid text : string),
     qid ∉ ["net_001"; "gov_003"; "dr_001"; "net_003"; "cost_001"; "sec_001"] ->
     validate_answer v qid text = [])
  ∧ (forall (q : DiscoveryQuestion) (text : string) (a : DiscoveryAgent) (s : DiscoverySession),
       session a = Some s -> auto_save_interval a ≠ 0 ->
       exists s' ans,
         session (fst (ask_user_question v q text a)) = Some s'
         ∧ answers s' !! id q = Some ans ∧ answer ans = text
         ∧ snd (ask_user_question v q text a) = Ok (ans, validate_answer v (id q) text)).
Proof.
  split.
  - intros qid text Hnot. unfold validate_answer, dict_get, VALIDATORS.
    cbv beta iota delta [dict_getitem].
    repeat match goal with
    | |- context [String.eqb ?k qid] =>
        destruct (String.eqb_spec k qid) as [<-|_];
          [exfalso; apply Hnot; repeat first [by left | right]|]
    end.
    reflexivity.
  - intros q text a s Hs Hn.
    destruct (ask_user_question_state v q text a s Hs) as (Hs' & _ & Hr).
    eexists _, (user_answer_of q text). split; [exact Hs'|]. simpl.
    split; [apply lookup_insert_eq|]. split; [reflexivity|]. by apply Hr.
Qed.

Lemma validation_is_advisory_witness :
  validate_answer no_ip_findings "biz_001" "Datacenter exit" = []
  ∧ exists s' ans,
      session (fst (ask_user_question no_ip_findings (catalog_question "sec_001")
                      "Not needed" started_agent)) = Some s'
      ∧ answers s' !! id (catalog_question "sec_001") = Some ans
      ∧ answer ans = "Not needed"
      ∧ snd (ask_user_question no_ip_findings (catalog_question "sec_001")
               "Not needed" started_agent)
        = Ok (ans, validate_answer no_ip_findings (id (catalog_question "sec_001")) "Not needed").
Proof.
  destruct (validation_is_advisory no_ip_findings) as [H1 H2]. split.
  - apply H1. vm_compute. intros H. repeat (inversion H as [|? ? ? H']; clear H; rename H' into H).
  - apply (H2 _ _ _ (new_DiscoverySession "workshop_20240101_120000" noon)).
    + reflexivity.
    + vm_compute. discriminate.
Defined.

(** An answer that draws a warning is recorded all the same. *)
Example warned_answer_is_recorded :
  let r := ask_user_question no_ip_findings (catalog_question "sec_001") "Not needed"
             started_agent in
  (map severity (validate_answer no_ip_findings "sec_001" "Not needed"),
   answer <$> answer_of (fst r) "sec_001")
  = ([WARNING], Some "Not needed").
Proof. vm_compute. reflexivity. Qed.

(** ** Snapshots *)

Lemma answers_in_catalog_check s :
  bool_decide (Forall (fun k => is_Some (dict_get DISCOVERY_QUESTIONS k))
                      (map_to_list (answers s)).*1) = true ->
  answers_in_catalog s.
Proof.
  intros Hall%bool_decide_eq_true. intros k [x Hx]. rewrite Forall_forall in Hall.
  apply Hall, list_elem_of_fmap. exists (k, x). split; [done|].
  by apply elem_of_map_to_list.
Qed.

(** The exported file is imported by an agent that holds another session,
    with an answer of its own, and a pending candidate. *)
Lemma export_import_round_trip_witness :
  let path := "discovery_results_workshop.json" in
  let b := set_session (Some other_session)
             (set_answer_cache <["net_002" := pending_net_002]>
                (fst (export_discovery_results path answered_agent))) in
  exists s2,
    snd (export_discovery_results path answered_agent) = Ok tt
    ∧ snd (import_discovery_results path b) = Ok true
    ∧ session (fst (import_discovery_results path b)) = Some s2
    ∧ dom (answers s2) = dom (answers answered_session)
    ∧ forall k x, answers answered_session !! k = Some x ->
        exists y, answers s2 !! k = Some y
                  ∧ answer y = answer x ∧ source y = source x
                  ∧ confidence y = confidence x
                  ∧ document_reference y = document_reference x.
Proof.
  apply (export_import_round_trip answered_agent
           (set_session (Some other_session)
              (set_answer_cache <["net_002" := pending_net_002]>
                 (fst (export_discovery_results "discovery_results_workshop.json"
                         answered_agent))))
           answered_session "discovery_results_workshop.json").
  - reflexivity.
  - apply answers_in_catalog_check. vm_compute. reflexivity.
  - reflexivity.
  - reflexivity.
Defined.

(** The importing agent's own answer, to [biz_001], is gone after the
    import, and the answer of the file is there. *)
Example import_replaces_the_session :
  let path := "discovery_results_workshop.json" in
  let b := set_session (Some other_session)
             (fst (export_discovery_results path answered_agent)) in
  (answer <$> answer_of b "biz_001", answer <$> answer_of b "net_002",
   answer <$> answer_of (fst (import_discovery_results path b)) "biz_001",
   answer <$> answer_of (fst (import_discovery_results path b)) "net_002")
  = (Some "Datacenter exit", None, None, Some "HQ and DR site").
Proof. vm_compute. reflexivity. Qed.

(** An export to a path in a directory that does not exist writes nothing
    and raises the error of [open]. *)
Example export_to_unwritable_path_raises :
  (snd (export_discovery_results "exports/discovery_results_workshop.json" answered_agent),
   working_directory (fst (export_discovery_results "exports/discovery_results_workshop.json"
                             answered_agent)))
  = (Raise (OSError "exports/discovery_results_workshop.json"), ∅).
Proof. vm_compute. reflexivity. Qed.

Lemma export_raises_KeyError_iff_unknown_id_witness :
  let path := "discovery_results_workshop.json" in
  ((answers_in_catalog answered_session
    ∧ (exists sm, get_discovery_summary answered_agent = Ok (Some sm))
    ∧ snd (export_discovery_results path answered_agent)
      = (if writable answered_agent path then Ok tt else Raise (OSError path))
    ∧ (writable answered_agent path = false ->
       fst (export_discovery_results path answered_agent) = answered_agent))
   ∨ (exists k, is_Some (answers answered_session !! k)
                ∧ dict_get DISCOVERY_QUESTIONS k = None
                ∧ get_discovery_summary answered_agent = Raise (KeyError k)
                ∧ export_discovery_results path answered_agent
                  = (answered_agent, Raise (KeyError k))))
  ∧ (snd (export_discovery_results path answered_agent) = Ok tt ->
     answers_in_catalog answered_session).
Proof.
  apply (export_raises_KeyError_iff_unknown_id answered_agent answered_session
           "discovery_results_workshop.json").
  reflexivity.
Defined.

Example export_with_unknown_id_raises :
  (get_discovery_summary legacy_agent,
   snd (export_discovery_results "discovery_results_workshop.json" legacy_agent),
   working_directory (fst (export_discovery_results "discovery_results_workshop.json"
                             legacy_agent)))
  = (Raise (KeyError "legacy_001"), Raise (KeyError "legacy_001"), ∅).
Proof. vm_compute. reflexivity. Qed.

Lemma well_formed_entries_export ds :
  Forall well_formed_entry ds ->
  exists l, Forall2 exports l ds ∧ Forall2 (fun kx d => ad_question_id d = Some kx.1) l ds.
Proof.
  induction 1 as [|d ds ([qid Hq] & [text Ht] & [src Hs] & [conf Hc]) _ (l & HF & HK)].
  - exists []. by split.
  - exists ((qid, {| question_id := qid; answer := text; source := src; confidence := conf;
                     document_reference := ad_document_reference d; notes := None |}) :: l).
    split; constructor; try done.
Qed.





(** [_auto_load_previous_session], which a starting workshop runs on its
    new session, resumes from such a file in the same way. *)
Example auto_load_keeps_answer_with_unknown_id :
  let a := set_session (Some (new_DiscoverySession "workshop_20240101_120000" noon))
             agent_with_legacy_file in
  let r := _auto_load_previous_session a in
  (snd r, answer <$> answer_of (fst r) "legacy_001") = (Ok tt, Some "The mainframe").
Proof. vm_compute. reflexivity. Qed.

(** * Further properties of the agent

    ** Checkpoints *)

(** What a checkpoint does to the files and the log, for a session [s]. *)
Lemma _auto_save_checkpoint_outcome (a : DiscoveryAgent) (s : DiscoverySession) :
  session a = Some s ->
  (answers_in_catalog s -> writable a (checkpoint_file s) = true ->
     exists r exported,
       build_results a s = Ok r
       ∧ r_answers r = Some exported
       ∧ length exported = size (answers s)
       ∧ working_directory (fst (_auto_save_checkpoint a))
         = <[checkpoint_file s := {| ctime := epoch (clock a); content := Json r |}]>
             (working_directory a))
  ∧ (¬ answers_in_catalog s ∨ writable a (checkpoint_file s) = false ->
       working_directory (fst (_auto_save_checkpoint a)) = working_directory a
       ∧ exists msg, logger (fst (_auto_save_checkpoint a))
                     = logger a ++ [(LOG_WARNING, msg)]).
Proof.
  intros Hs. unfold _auto_save_checkpoint. unfold_M. rewrite Hs.
  fold (checkpoint_file s). split.
  - intros Hcat Hw.
    destruct (build_results_ok a s Hs Hcat) as (r & exported & Hr & Hans & HF).
    exists r, exported. split; [done|]. split; [done|]. split.
    + apply Forall2_length in HF. rewrite <- HF. apply length_map_to_list.
    + by rewrite (export_discovery_results_ok _ a s r Hs Hr Hw).
  - intros Hfail. destruct (answers_in_catalog_dec s) as [Hcat|Hcat].
    + destruct Hfail as [Hfail|Hw]; [done|].
      destruct (build_results_ok a s Hs Hcat) as (r & exported & Hr & _).
      rewrite (export_discovery_results_unwritable _ a s r Hs Hr Hw). simpl.
      split; [done|]. by eexists.
    + destruct (build_results_unknown a s Hs Hcat) as (k & _ & _ & _ & Hr).
      rewrite (export_discovery_results_raise _ a s _ Hs Hr). simpl.
      split; [done|]. by eexists.
Qed.

(** X1.  [_auto_save_checkpoint] never raises and never changes the
    session, the cache, the threshold or the interval.  When the session's
    answers all carry catalog ids and [checkpoint_<session id>.json] can be
    opened for writing, it writes the snapshot there; when there is no
    session, or an answer carries an id the catalog does not have, or the
    file cannot be opened, it leaves the files as they are and logs one
    warning. *)
Theorem _auto_save_checkpoint_never_raises (a : DiscoveryAgent) :
  snd (_auto_save_checkpoint a) = Ok tt
  ∧ same_attributes a (fst (_auto_save_checkpoint a))
  ∧ (forall s, session a = Some s -> answers_in_catalog s ->
       writable a (checkpoint_file s) = true ->
       exists r, build_results a s = Ok r
                 ∧ working_directory (fst (_auto_save_checkpoint a))
                   = <[checkpoint_file s
                       := {| ctime := epoch (clock a); content := Json r |}]>
                       (working_directory a))
  ∧ ((session a = None
      ∨ exists s, session a = Some s
                  ∧ (¬ answers_in_catalog s ∨ writable a (checkpoint_file s) = false)) ->
       working_directory (fst (_auto_save_checkpoint a)) = working_directory a
       ∧ exists msg, logger (fst (_auto_save_checkpoint a))
                     = logger a ++ [(LOG_WARNING, msg)]).
Proof.
  split; [apply _auto_save_checkpoint_same_attributes|].
  split; [apply _auto_save_checkpoint_same_attributes|].
  split.
  - intros s Hs Hcat Hw.
    destruct (_auto_save_checkpoint_outcome a s Hs) as [Hsave _].
    destruct (Hsave Hcat Hw) as (r & exported & Hr & _ & _ & Hwd). by exists r.
  - intros [Hnone|(s & Hs & Hfail)].
    + unfold _auto_save_checkpoint. unfold_M. rewrite Hnone. simpl.
      split; [done|]. by eexists.
    + by apply (_auto_save_checkpoint_outcome a s Hs).
Qed.

(** A session resumed from a file may carry any id: with the id
    [2024/01] the checkpoint would lie in a directory that does not exist,
    and the save ends in a warning. *)
Example checkpoint_in_missing_directory_warns :
  let a := set_session (Some (new_DiscoverySession "2024/01" noon)) fresh_agent in
  (snd (_auto_save_checkpoint a), working_directory (fst (_auto_save_checkpoint a)),
   fst <$> logger (fst (_auto_save_checkpoint a)))
  = (Ok tt, ∅, [LOG_WARNING]).
Proof. vm_compute. reflexivity. Qed.

(** X2.  [ask_user_question] saves a checkpoint exactly when the number of
    answers after the new one is a multiple of [auto_save_interval]:
    otherwise neither the files nor the log change.  On a multiple, with
    every answered id in the catalog and a checkpoint file that can be
    opened for writing, [checkpoint_<session id>.json] holds a snapshot with
    one entry per answer; on a multiple where an id is unknown or the file
    cannot be opened, the files stay as they are and one warning is logged.
    The answer is recorded in every case. *)
Theorem ask_user_question_checkpoint_cadence (v : string -> list ValidationResult)
    (q : DiscoveryQuestion) (text : string) (a : DiscoveryAgent) (s : DiscoverySession) :
  session a = Some s -> auto_save_interval a ≠ 0 ->
  let s' := update_completion (set_answers <[id q := user_answer_of q text]> s) in
  let a' := fst (ask_user_question v q text a) in
  session a' = Some s'
  ∧ (size (answers s') mod auto_save_interval a ≠ 0 ->
     working_directory a' = working_directory a ∧ logger a' = logger a)
  ∧ (size (answers s') mod auto_save_interval a = 0 -> answers_in_catalog s' ->
     writable a (checkpoint_file s) = true ->
     exists r exported,
       working_directory a'
       = <[checkpoint_file s
           := {| ctime := epoch (clock a); content := Json r |}]> (working_directory a)
       ∧ r_answers r = Some exported
       ∧ length exported = size (answers s'))
  ∧ (size (answers s') mod auto_save_interval a = 0 ->
     ¬ answers_in_catalog s' ∨ writable a (checkpoint_file s) = false ->
     working_directory a' = working_directory a
     ∧ exists msg, logger a' = logger a ++ [(LOG_WARNING, msg)]).
Proof.
  intros Hs Hint s' a'.
  split; [by destruct (ask_user_question_state v q text a s Hs) as (? & _)|].
  subst a'. unfold ask_user_question. unfold_M. rewrite Hs. simpl.
  destruct (auto_save_interval a) as [|n] eqn:Hn; [done|].
  fold (user_answer_of q text). fold s'.
  split; [|split].
  - intros Hmod. apply Nat.eqb_neq in Hmod. by rewrite Hmod.
  - intros Hmod Hcat Hw. apply Nat.eqb_eq in Hmod. rewrite Hmod.
    match goal with |- context [_auto_save_checkpoint ?a1] => set (a1' := a1) end.
    destruct (_auto_save_checkpoint_outcome a1' s' eq_refl) as [Hsave _].
    destruct (Hsave Hcat Hw) as (r & exported & _ & Hans & Hlen & Hwd).
    exists r, exported.
    destruct (_auto_save_checkpoint a1') as [a2 [[]|e]];
      (split; [exact Hwd|split; [exact Hans|exact Hlen]]).
  - intros Hmod Hfail. apply Nat.eqb_eq in Hmod. rewrite Hmod.
    match goal with |- context [_auto_save_checkpoint ?a1] => set (a1' := a1) end.
    destruct (_auto_save_checkpoint_outcome a1' s' eq_refl) as [_ Hwarn].
    destruct (Hwarn Hfail) as [Hwd Hlog].
    destruct (_auto_save_checkpoint a1') as [a2 [[]|e]]; (split; [exact Hwd|exact Hlog]).
Qed.

Lemma ask_user_question_checkpoint_cadence_witness :
  let q := catalog_question "net_002" in
  let a := agent_due_for_checkpoint in
  let s' := update_completion
              (set_answers <[id q := user_answer_of q "HQ and DR site"]> four_answers) in
  let a' := fst (ask_user_question no_ip_findings q "HQ and DR site" a) in
  session a' = Some s'
  ∧ (size (answers s') mod auto_save_interval a ≠ 0 ->
     working_directory a' = working_directory a ∧ logger a' = logger a)
  ∧ (size (answers s') mod auto_save_interval a = 0 -> answers_in_catalog s' ->
     writable a (checkpoint_file four_answers) = true ->
     exists r exported,
       working_directory a'
       = <[checkpoint_file four_answers
           := {| ctime := epoch (clock a); content := Json r |}]> (working_directory a)
       ∧ r_answers r = Some exported
       ∧ length exported = size (answers s'))
  ∧ (size (answers s') mod auto_save_interval a = 0 ->
     ¬ answers_in_catalog s' ∨ writable a (checkpoint_file four_answers) = false ->
     working_directory a' = working_directory a
     ∧ exists msg, logger a' = logger a ++ [(LOG_WARNING, msg)]).
Proof.
  apply (ask_user_question_checkpoint_cadence no_ip_findings (catalog_question "net_002")
           "HQ and DR site" agent_due_for_checkpoint four_answers).
  - reflexivity.
  - vm_compute. discriminate.
Defined.

(** The fifth answer of a workshop is followed by a checkpoint. *)
Example fifth_answer_is_checkpointed :
  let a' := fst (ask_user_question no_ip_findings (catalog_question "net_002")
                   "HQ and DR site" agent_due_for_checkpoint) in
  (fst <$> map_to_list (working_directory a'), logger a')
  = (["checkpoint_workshop_20240101_120000.json"],
     [(LOG_INFO, "Discovery results exported to checkpoint_workshop_20240101_120000.json");
      (LOG_INFO, "Auto-saved checkpoint: checkpoint_workshop_20240101_120000.json")]).
Proof. vm_compute. reflexivity. Qed.

(** ** Imports that fail *)

Lemma for_each_app {S A} (body : A -> M S unit) (l1 l2 : list A) (s : S) :
  for_each (l1 ++ l2) body s
  = match for_each l1 body s with
    | (s1, Ok _) => for_each l2 body s1
    | (s1, Raise e) => (s1, Raise e)
    end.
Proof.
  revert s. induction l1 as [|x l1 IH]; intros s; simpl; [done|].
  unfold bind. destruct (body x s) as [s1 [[]|e]]; [apply IH|done].
Qed.

Lemma load_answer_malformed d a :
  ¬ well_formed_entry d -> exists k, load_answer d a = (a, Raise (KeyError k)).
Proof.
  intros Hwf. unfold load_answer. unfold_M.
  destruct (ad_question_id d) as [qid|] eqn:H1; simpl; [|by eexists].
  destruct (ad_answer d) as [text|] eqn:H2; simpl; [|by eexists].
  destruct (ad_source d) as [src|] eqn:H3; simpl; [|by eexists].
  destruct (ad_confidence d) as [conf|] eqn:H4; simpl; [|by eexists].
  destruct Hwf. unfold well_formed_entry. rewrite H1, H2, H3, H4. by repeat split.
Qed.

Lemma load_answers_session l ds : forall a s,
  session a = Some s -> Forall2 exports l ds ->
  session (fst (for_each ds load_answer a))
  = Some (set_answers (fun m => fold_left insert_reimported l m) s).
Proof.
  intros a s Hs HF. revert a s Hs.
  induction HF as [|kx d l ds Hex _ IH]; intros a s Hs; simpl.
  - rewrite Hs. by destruct s.
  - unfold bind. rewrite (load_answer_exports kx d a s Hs Hex).
    erewrite IH by reflexivity. reflexivity.
Qed.

Lemma fold_insert_reimported_dom (l : list (string * DiscoveryAnswer)) k :
  forall m, is_Some (fold_left insert_reimported l m !! k) <-> k ∈ l.*1 ∨ is_Some (m !! k).
Proof.
  induction l as [|[k' x] l IH]; intros m; simpl.
  - rewrite elem_of_nil. tauto.
  - rewrite IH. unfold insert_reimported. simpl. rewrite elem_of_cons.
    destruct (decide (k = k')) as [->|Hne].
    + rewrite lookup_insert_eq. split; [intros _|intros _]; eauto.
    + rewrite lookup_insert_ne by done. tauto.
Qed.

(** X3.  [import_discovery_results] on a path that cannot be opened, or
    whose file is not JSON, returns [False], logs one error and leaves the
    session and the cache as they were. *)
Theorem import_unreadable_file_changes_nothing (a : DiscoveryAgent) (path : string) :
  (working_directory a !! path = None
   ∨ exists f, working_directory a !! path = Some f ∧ content f = NotJson) ->
  snd (import_discovery_results path a) = Ok false
  ∧ session (fst (import_discovery_results path a)) = session a
  ∧ answer_cache (fst (import_discovery_results path a)) = answer_cache a
  ∧ working_directory (fst (import_discovery_results path a)) = working_directory a
  ∧ exists msg, logger (fst (import_discovery_results path a))
                = logger a ++ [(LOG_ERROR, msg)].
Proof.
  intros [Hnone|(f & Hf & Hc)]; unfold import_discovery_results, read_json; unfold_M.
  - rewrite Hnone. simpl. repeat split; by eexists.
  - rewrite Hf, Hc. simpl. repeat split; by eexists.
Qed.

Lemma import_unreadable_file_changes_nothing_witness :
  snd (import_discovery_results "discovery_results_missing.json" answered_agent) = Ok false
  ∧ session (fst (import_discovery_results "discovery_results_missing.json" answered_agent))
    = session answered_agent
  ∧ answer_cache (fst (import_discovery_results "discovery_results_missing.json"
                         answered_agent))
    = answer_cache answered_agent
  ∧ working_directory (fst (import_discovery_results "discovery_results_missing.json"
                               answered_agent))
    = working_directory answered_agent
  ∧ exists msg, logger (fst (import_discovery_results "discovery_results_missing.json"
                               answered_agent))
                = logger answered_agent ++ [(LOG_ERROR, msg)].
Proof.
  apply (import_unreadable_file_changes_nothing answered_agent
           "discovery_results_missing.json").
  left. reflexivity.
Defined.

(** X4.  When an entry of the imported file lacks one of the keys
    [question_id], [answer], [source], [confidence],
    [import_discovery_results] returns [False] after it has replaced the
    session: the new session holds the entries that came before the
    malformed one and no other, and its completion percentage is still
    0.0. *)
Theorem import_stops_at_malformed_entry (a : DiscoveryAgent) (path : string) (f : file)
    (r : results) (good : list answer_data) (bad : answer_data) (rest : list answer_data) :
  working_directory a !! path = Some f -> content f = Json r ->
  r_answers r = Some (good ++ bad :: rest) ->
  Forall well_formed_entry good -> ¬ well_formed_entry bad ->
  exists s',
    snd (import_discovery_results path a) = Ok false
    ∧ session (fst (import_discovery_results path a)) = Some s'
    ∧ (forall k, is_Some (answers s' !! k)
                 <-> exists d, d ∈ good ∧ ad_question_id d = Some k)
    ∧ completion_percentage s' = 0%Q.
Proof.
  intros Hf Hc Hr Hgood Hbad.
  destruct (well_formed_entries_export good Hgood) as (l & HF & Hids).
  unfold import_discovery_results, read_json. unfold_M.
  rewrite Hf, Hc, Hr. simpl default. rewrite for_each_app.
  match goal with |- context [for_each good load_answer ?a1] =>
    destruct (load_answers_fold l good a1 _ eq_refl HF) as (s' & H1 & H2 & H3 & _);
    pose proof (load_answers_session l good a1 _ eq_refl HF) as H4;
    destruct (for_each good load_answer a1) as [a2 r2]
  end.
  simpl in H1, H2, H3, H4. subst r2. simpl for_each. unfold bind.
  destruct (load_answer_malformed bad a2 Hbad) as (k0 & ->). simpl.
  exists s'. split; [done|]. split; [done|]. split.
  - intros k. rewrite H2, fold_insert_reimported_dom. simpl.
    rewrite lookup_empty, is_Some_alt. split.
    + intros [Hk|[]]. apply list_elem_of_fmap in Hk as ([k' x] & -> & Hin).
      apply list_elem_of_lookup_1 in Hin as (i & Hi).
      destruct (Forall2_lookup_l _ _ _ _ _ Hids Hi) as (d & Hd & Hid).
      simpl in Hid. exists d. split; [by eapply list_elem_of_lookup_2|done].
    + intros (d & Hin & Hid). left.
      apply list_elem_of_lookup_1 in Hin as (i & Hi).
      destruct (Forall2_lookup_r _ _ _ _ _ Hids Hi) as (kx & Hkx & Hid').
      destruct kx as [k1 x1]. apply list_elem_of_fmap. exists (k1, x1).
      split; [simpl; congruence|].
      by eapply list_elem_of_lookup_2.
  - rewrite H1 in H4. by injection H4 as ->.
Qed.

(** ** Counting answered and missing questions *)

Lemma List_filter_bool_decide {A} (P : A -> Prop) `{!forall x, Decision (P x)} (l : list A) :
  List.filter (fun x => bool_decide (P x)) l = filter P l.
Proof.
  induction l as [|x l IH]; simpl; [done|].
  rewrite filter_cons, IH. by case_bool_decide; case_decide.
Qed.

Lemma dict_get_elem_of {V} (d : dict V) k v :
  NoDup (dict_keys d) -> dict_get d k = Some v <-> (k, v) ∈ d.
Proof.
  unfold dict_get. induction d as [|[k' v'] d IH]; simpl; intros Hnd.
  - rewrite elem_of_nil. split; [done|tauto].
  - apply NoDup_cons in Hnd as [Hk' Hnd]. rewrite elem_of_cons.
    destruct (String.eqb_spec k' k) as [->|Hne].
    + split; [intros [= ->]; by left|].
      intros [[= ->]|Hin]; [done|]. destruct Hk'.
      apply list_elem_of_fmap. by exists (k, v).
    + rewrite (IH Hnd). split; [by right|]. intros [[= -> ->]|Hin]; done.
Qed.

Lemma NoDup_map_List_filter {A B} (f : A -> B) (p : A -> bool) (l : list A) :
  NoDup (map f l) -> NoDup (map f (List.filter p l)).
Proof.
  induction l as [|x l IH]; simpl; [done|].
  intros [Hx Hnd]%NoDup_cons. destruct (p x); simpl; [|by apply IH].
  apply NoDup_cons. split; [|by apply IH].
  intros Hin. apply Hx. apply list_elem_of_fmap in Hin as (y & -> & Hy).
  apply list_elem_of_fmap. exists y. split; [done|].
  apply list_elem_of_In, filter_In in Hy as [Hy _]. by apply list_elem_of_In.
Qed.

(** The catalog questions that satisfy [R] and are answered in [m] are, up
    to order, the keys of [m] whose catalog question satisfies [R]. *)
Lemma answered_ids_perm (R : DiscoveryQuestion -> bool) (m : gmap string DiscoveryAnswer)
    (d : dict DiscoveryQuestion) :
  Forall (fun kq => id (snd kq) = fst kq) d -> NoDup (dict_keys d) ->
  map id (List.filter (fun q => R q && bool_decide (is_Some (m !! id q))) (dict_values d))
  ≡ₚ List.filter (fun k => match dict_get d k with Some q => R q | None => false end)
       (map_to_list m).*1.
Proof.
  intros Hids Hnd. apply NoDup_Permutation.
  - apply NoDup_map_List_filter. unfold dict_values. rewrite map_map.
    erewrite map_ext_Forall; [exact Hnd|]. done.
  - rewrite <- (map_id (List.filter _ _)). apply NoDup_map_List_filter.
    rewrite map_id. apply NoDup_fst_map_to_list.
  - intros k. rewrite list_elem_of_fmap. setoid_rewrite list_elem_of_In.
    setoid_rewrite filter_In. setoid_rewrite <- list_elem_of_In. split.
    + intros (q & -> & Hq & HR). apply andb_prop in HR as [HR Hsome].
      apply bool_decide_eq_true in Hsome as [x Hx].
      apply list_elem_of_fmap in Hq as ([k q'] & -> & Hin). simpl in *.
      pose proof (proj1 (Forall_forall _ _) Hids _ Hin) as Hk.
      simpl in Hk. subst k. split.
      * apply list_elem_of_fmap. exists (id q', x). split; [done|].
        by apply elem_of_map_to_list.
      * apply (dict_get_elem_of d) in Hin; [|done]. by rewrite Hin.
    + intros [Hk HR]. destruct (dict_get d k) as [q|] eqn:Hget; [|done].
      apply (dict_get_elem_of d) in Hget; [|done].
      pose proof (proj1 (Forall_forall _ _) Hids _ Hget) as Hid.
      exists q. split; [done|]. split.
      * apply list_elem_of_fmap. by exists (k, q).
      * rewrite HR. simpl. apply bool_decide_eq_true.
        apply list_elem_of_fmap in Hk as ([k' x] & -> & Hx).
        apply elem_of_map_to_list in Hx. simpl in Hid. rewrite Hid. by exists x.
Qed.

(** With every answered id in the catalog, the answered catalog questions
    are as many as the answers. *)
Lemma answered_count (s : DiscoverySession) :
  answers_in_catalog s ->
  count_if (fun q => bool_decide (is_Some (answers s !! id q)))
           (dict_values DISCOVERY_QUESTIONS)
  = size (answers s).
Proof.
  intros Hcat. unfold count_if.
  transitivity (length (map id (List.filter
                                  (fun q => true && bool_decide (is_Some (answers s !! id q)))
                                  (dict_values DISCOVERY_QUESTIONS))));
    [symmetry; apply length_map|].
  etrans; [apply Permutation_length,
             (answered_ids_perm (fun _ => true) (answers s) DISCOVERY_QUESTIONS
                DISCOVERY_QUESTIONS_keys_are_ids DISCOVERY_QUESTIONS_keys_unique)|].
  rewrite <- length_map_to_list, <- (length_fmap fst (map_to_list (answers s))).
  f_equal. rewrite forallb_filter_id; [done|].
  apply forallb_forall. intros k Hk%list_elem_of_In.
  apply list_elem_of_fmap in Hk as ([k' x] & -> & Hx). simpl.
  apply elem_of_map_to_list in Hx.
  destruct (Hcat k') as [q Hq]; [by exists x|]. by rewrite Hq.
Qed.

Lemma length_List_filter_complement {A} (p : A -> bool) (l : list A) :
  length (List.filter p l) + length (List.filter (fun x => negb (p x)) l) = length l.
Proof. induction l as [|x l IH]; simpl; [done|]. destruct (p x); simpl; lia. Qed.

Lemma get_missing_information_all (a : DiscoveryAgent) (s : DiscoverySession) :
  session a = Some s ->
  get_missing_information a None
  = List.filter (fun q => bool_decide (answers s !! id q = None))
                (dict_values DISCOVERY_QUESTIONS).
Proof.
  intros Hs. unfold get_missing_information. rewrite Hs, missing_loop_filter.
  rewrite app_nil_l. unfold dict_values.
  pose proof DISCOVERY_QUESTIONS_keys_are_ids as Hids.
  induction DISCOVERY_QUESTIONS as [|[k q] d IH]; simpl; [done|].
  apply Forall_cons in Hids as [Hk Hids]. simpl in Hk. subst k.
  unfold is_missing at 1. simpl. destruct (bool_decide _); simpl; by rewrite IH.
Qed.

(** X5.  Without a priority filter [get_missing_information] returns, in
    catalog order, exactly the catalog questions whose id has no answer;
    when every answered id is in the catalog, the missing and the answered
    questions together are the 48 questions of the catalog. *)
Theorem get_missing_information_complement (a : DiscoveryAgent) (s : DiscoverySession) :
  session a = Some s ->
  get_missing_information a None
  = filter (fun q => answers s !! id q = None) (dict_values DISCOVERY_QUESTIONS)
  ∧ (answers_in_catalog s ->
     length (get_missing_information a None) + size (answers s) = 48).
Proof.
  intros Hs. rewrite (get_missing_information_all a s Hs). split.
  - apply List_filter_bool_decide.
  - intros Hcat. rewrite <- (answered_count s Hcat). unfold count_if.
    pose proof (length_List_filter_complement
                  (fun q => bool_decide (is_Some (answers s !! id q)))
                  (dict_values DISCOVERY_QUESTIONS)) as Hsum.
    unfold dict_values at 3 in Hsum. rewrite length_map in Hsum.
    change (length DISCOVERY_QUESTIONS) with 48 in Hsum.
    rewrite (filter_ext (fun q => bool_decide (answers s !! id q = None))
               (fun q => negb (bool_decide (is_Some (answers s !! id q))))); [lia|].
    intros q. destruct (answers s !! id q) as [x|].
    + rewrite bool_decide_eq_false_2 by done. by rewrite bool_decide_eq_true_2 by eauto.
    + rewrite bool_decide_eq_true_2 by done.
      by rewrite bool_decide_eq_false_2 by apply is_Some_None.
Qed.

(** ** The summary *)

Lemma count_result_filter {A} (p : A -> result bool) (l : list A) n :
  count_result p l = Ok n ->
  n = length (List.filter (fun x => match p x with Ok b => b | Raise _ => false end) l).
Proof.
  revert n. induction l as [|x l IH]; simpl; intros n; [by intros [= <-]|].
  destruct (p x) as [b|e]; simpl; [|done].
  destruct (count_result p l) as [n'|e]; simpl; [|done].
  intros [= <-]. rewrite (IH n' eq_refl). by destruct b.
Qed.

(** Each question belongs to exactly one category. *)
Lemma by_category_partition (p : DiscoveryQuestion -> bool) (l : list DiscoveryQuestion) :
  sum_list (map (fun c => count_if p (List.filter (fun q => bool_decide (category q = c)) l))
                DiscoveryCategory_members)
  = count_if p l.
Proof.
  unfold count_if, DiscoveryCategory_members.
  induction l as [|q l IH]; [done|].
  cbn [map sum_list] in IH |- *. cbn [List.filter].
  unfold Datatypes.id in *.
  destruct (category q); simpl bool_decide; cbv iota;
    destruct (p q) eqn:Hp; cbn [List.filter length]; rewrite ?Hp; cbn [length]; lia.
Qed.

Lemma by_category_total (l : list DiscoveryQuestion) :
  sum_list (map (fun c => length (List.filter (fun q => bool_decide (category q = c)) l))
                DiscoveryCategory_members)
  = length l.
Proof.
  unfold DiscoveryCategory_members.
  induction l as [|q l IH]; [done|].
  cbn [map sum_list] in IH |- *. cbn [List.filter].
  unfold Datatypes.id in *.
  destruct (category q); simpl bool_decide; cbv iota; cbn [length]; lia.
Qed.

Lemma get_discovery_summary_in_catalog a s sm :
  session a = Some s -> get_discovery_summary a = Ok sm -> answers_in_catalog s.
Proof.
  intros Hs Hsm. destruct (answers_in_catalog_dec s) as [Hcat|Hcat]; [done|].
  destruct (get_discovery_summary_unknown a s Hs Hcat) as (k & _ & _ & Hraise).
  congruence.
Qed.

(** The fields of a summary that count questions, as the code computes them. *)
Lemma get_discovery_summary_fields a s sm :
  session a = Some s -> get_discovery_summary a = Ok (Some sm) ->
  sm_total_questions sm = get_total_count
  ∧ sm_answered sm = get_answered_count s
  ∧ count_result
      (fun qid => bind_result (dict_getitem DISCOVERY_QUESTIONS qid)
                    (fun q => Ok (bool_decide (priority q = CRITICAL))))
      (map_to_list (answers s)).*1
    = Ok (cs_answered (sm_critical_questions sm))
  ∧ cs_total (sm_critical_questions sm) = length get_critical_questions
  ∧ sm_missing_critical sm = map question (get_critical_gaps a)
  ∧ map (fun x => cs_answered (snd x)) (sm_by_category sm)
    = map (fun c => count_if (fun q => bool_decide (is_Some (answers s !! id q)))
                             (get_questions_by_category c))
          DiscoveryCategory_members
  ∧ map (fun x => cs_total (snd x)) (sm_by_category sm)
    = map (fun c => length (get_questions_by_category c)) DiscoveryCategory_members.
Proof.
  intros Hs Hsm. unfold get_discovery_summary in Hsm. rewrite Hs in Hsm.
  destruct (count_result _ _) as [critical_answered|e]; [|done].
  injection Hsm as <-. repeat split; reflexivity.
Qed.

(** X6.  The counts of a summary are consistent with one another: the
    total is the 48 catalog questions, the answered count is the number of
    answers, the critical questions answered and the critical questions
    listed as missing add up to the critical total, and the per-category
    answered counts add up to the answered count. *)
Theorem get_discovery_summary_counts (a : DiscoveryAgent) (s : DiscoverySession)
    (sm : summary) :
  session a = Some s -> get_discovery_summary a = Ok (Some sm) ->
  sm_total_questions sm = 48
  ∧ sm_answered sm = size (answers s)
  ∧ cs_answered (sm_critical_questions sm) + length (sm_missing_critical sm)
    = cs_total (sm_critical_questions sm)
  ∧ sum_list (map (fun x => cs_answered (snd x)) (sm_by_category sm)) = sm_answered sm
  ∧ sum_list (map (fun x => cs_total (snd x)) (sm_by_category sm)) = sm_total_questions sm.
Proof.
  intros Hs Hsm.
  pose proof (get_discovery_summary_in_catalog a s _ Hs Hsm) as Hcat.
  destruct (get_discovery_summary_fields a s sm Hs Hsm)
    as (Htotal & Hanswered & Hcount & Hcrit & Hmissing & Hcat_answered & Hcat_total).
  apply count_result_filter in Hcount.
  rewrite Htotal, Hanswered, Hcat_answered, Hcat_total, Hcrit, Hmissing, Hcount.
  clear Htotal Hanswered Hcat_answered Hcat_total Hcrit Hmissing Hcount Hsm.
  split; [done|]. split; [done|]. split; [|split].
  - rewrite length_map.
    unfold get_critical_gaps, get_missing_information. rewrite Hs.
    rewrite missing_loop_filter, app_nil_l.
    rewrite (missing_items_values CRITICAL (answers s) DISCOVERY_QUESTIONS
               DISCOVERY_QUESTIONS_keys_are_ids).
    fold (dict_values DISCOVERY_QUESTIONS).
    unfold get_critical_questions, get_questions_by_priority.
    set (crit := fun q => bool_decide (priority q = CRITICAL)).
    set (ans := fun q => bool_decide (is_Some (answers s !! id q))).
    assert (H1 : length (List.filter
                   (fun x => match bind_result (dict_getitem DISCOVERY_QUESTIONS x)
                                     (fun q => Ok (bool_decide (priority q = CRITICAL)))
                             with Ok b => b | Raise _ => false end)
                   (map_to_list (answers s)).*1)
                 = length (List.filter (fun q => crit q && ans q)
                                       (dict_values DISCOVERY_QUESTIONS))).
    { transitivity (length (map id (List.filter (fun q => crit q && ans q)
                                                (dict_values DISCOVERY_QUESTIONS))));
        [|apply length_map].
      symmetry.
      etrans; [apply Permutation_length,
                 (answered_ids_perm crit (answers s) DISCOVERY_QUESTIONS
                    DISCOVERY_QUESTIONS_keys_are_ids DISCOVERY_QUESTIONS_keys_unique)|].
      f_equal. apply filter_ext. intros k. unfold dict_get.
      by destruct (dict_getitem DISCOVERY_QUESTIONS k). }
    assert (H2 : filter (fun q => priority q = CRITICAL ∧ answers s !! id q = None)
                        (dict_values DISCOVERY_QUESTIONS)
                 = List.filter (fun q => crit q && negb (ans q))
                               (dict_values DISCOVERY_QUESTIONS)).
    { rewrite <- List_filter_bool_decide. apply filter_ext. intros q. unfold crit, ans.
      destruct (answers s !! id q) as [x|].
      - rewrite (bool_decide_eq_true_2 (is_Some (Some x))) by eauto.
        rewrite andb_false_r. apply bool_decide_eq_false_2. by intros [_ ?].
      - rewrite (bool_decide_eq_false_2 (is_Some None)) by apply is_Some_None.
        rewrite andb_true_r. apply bool_decide_ext. tauto. }
    rewrite H1, H2. clear.
    induction (dict_values DISCOVERY_QUESTIONS) as [|q l IH]; simpl; [done|].
    destruct (crit q), (ans q); simpl; lia.
  - unfold get_questions_by_category.
    rewrite (by_category_partition
               (fun q => bool_decide (is_Some (answers s !! id q)))
               (dict_values DISCOVERY_QUESTIONS)).
    by apply answered_count.
  - unfold get_questions_by_category.
    rewrite (by_category_total (dict_values DISCOVERY_QUESTIONS)).
    unfold dict_values. by rewrite length_map.
Qed.

Lemma import_stops_at_malformed_entry_witness :
  exists s',
    snd (import_discovery_results "discovery_results_workshop_2023.json"
           agent_with_truncated_file) = Ok false
    ∧ session (fst (import_discovery_results "discovery_results_workshop_2023.json"
                      agent_with_truncated_file)) = Some s'
    ∧ (forall k, is_Some (answers s' !! k)
                 <-> exists d, d ∈ [legacy_entry] ∧ ad_question_id d = Some k)
    ∧ completion_percentage s' = 0%Q.
Proof.
  apply (import_stops_at_malformed_entry agent_with_truncated_file
           "discovery_results_workshop_2023.json" truncated_file truncated_snapshot
           [legacy_entry] truncated_entry []).
  - reflexivity.
  - reflexivity.
  - reflexivity.
  - repeat constructor; simpl; eauto.
  - intros (_ & [x Hx] & _). discriminate Hx.
Defined.

Lemma get_missing_information_complement_witness :
  get_missing_information answered_agent None
  = filter (fun q => answers answered_session !! id q = None)
           (dict_values DISCOVERY_QUESTIONS)
  ∧ (answers_in_catalog answered_session ->
     length (get_missing_information answered_agent None) + size (answers answered_session)
     = 48).
Proof.
  apply (get_missing_information_complement answered_agent answered_session).
  reflexivity.
Defined.

Lemma get_discovery_summary_counts_witness :
  exists sm,
    get_discovery_summary answered_agent = Ok (Some sm)
    ∧ sm_total_questions sm = 48
    ∧ sm_answered sm = size (answers answered_session)
    ∧ cs_answered (sm_critical_questions sm) + length (sm_missing_critical sm)
      = cs_total (sm_critical_questions sm)
    ∧ sum_list (map (fun x => cs_answered (snd x)) (sm_by_category sm)) = sm_answered sm
    ∧ sum_list (map (fun x => cs_total (snd x)) (sm_by_category sm))
      = sm_total_questions sm.
Proof.
  destruct (get_discovery_summary answered_agent) as [[sm|]|e] eqn:Hsm;
    [|vm_compute in Hsm; discriminate Hsm..].
  exists sm. split; [reflexivity|].
  apply (get_discovery_summary_counts answered_agent answered_session sm).
  - reflexivity.
  - exact Hsm.
Defined.
